(** * ccusage-menubar diagnostic scripts: cost reconciliation, comparison,
      log scanning and the external fetchers

    A shallow embedding of the Python scripts of the repository.  Python
    [int] is [Z]; Python [float] is IEEE binary64, embedded with the
    primitive floats of the kernel, whose operations the Standard Library
    specifies bit for bit ([FloatAxioms]).  Where an [int] meets a [float]
    Python converts it, and raises [OverflowError] when it is too large:
    the conversions here do the same.  The same calculations are also
    instantiated over the rationals [Q], which is how the scripts' formulas
    read as algebra. *)

From Stdlib Require Import ZArith QArith Qabs Qfield Floats List String Ascii Bool Lia.
From Stdlib Require Import Permutation.
Import ListNotations.

Set Warnings "-inexact-float,-register-all".

Local Open Scope Z_scope.

(** ** Python numbers *)

Module Py.

(** Exceptions the scripts can meet. *)
Inductive exn : Type :=
| ZeroDivisionError
| OverflowError
| TypeError
| AttributeError
| KeyError (key : string)
| IndexError
| JSONDecodeError (msg : string)
| UnicodeDecodeError
| UnicodeEncodeError
| TimeoutExpired
| OSError (msg : string).

Inductive result (A : Type) : Type :=
| Ok (a : A)
| Raise (e : exn).
Arguments Ok {A} a.
Arguments Raise {A} e.

Definition bind {A B} (r : result A) (k : A -> result B) : result B :=
  match r with
  | Ok a => k a
  | Raise e => Raise e
  end.

(** The arithmetic a script performs on its non-integer numbers.  [of_int]
    is the value of an [int] as a float, for an [int] that [int_fits];
    [int_div] is [a / b] on two [int]s (true division), for a non-zero [b]
    and a quotient that [div_fits]; [fdiv] is the quotient of two floats,
    for a non-zero divisor; [feqb] and [fltb] are [==] and [<]. *)
Class Number (F : Type) : Type := {
  fadd : F -> F -> F;
  fsub : F -> F -> F;
  fmul : F -> F -> F;
  fdiv : F -> F -> F;
  fabs : F -> F;
  feqb : F -> F -> bool;
  fltb : F -> F -> bool;
  of_int : Z -> F;
  int_div : Z -> Z -> F;
  int_fits : Z -> bool;
  div_fits : Z -> Z -> bool
}.

(** The least magnitude that rounds to [2^1024], which binary64 does not
    hold: from here on CPython raises [OverflowError]. *)
Definition float_max_int : Z := 2 ^ 1024 - 2 ^ 970.

(** [float(n)]: the integer rounded to the nearest binary64 value, ties to
    even. *)
Definition float_of_int (n : Z) : float :=
  SF2Prim (binary_normalize prec emax n 0 false).

Definition SF_of_int (n : Z) : spec_float :=
  match n with
  | Z0 => S754_zero false
  | Zpos p => S754_finite false p 0
  | Zneg p => S754_finite true p 0
  end.

(** [a / b] on two [int]s: the quotient of the two integers, rounded
    once. *)
Definition float_int_div (a b : Z) : float :=
  SF2Prim (SFdiv prec emax (SF_of_int a) (SF_of_int b)).

#[export] Instance binary64 : Number float := {
  fadd := PrimFloat.add;
  fsub := PrimFloat.sub;
  fmul := PrimFloat.mul;
  fdiv := PrimFloat.div;
  fabs := PrimFloat.abs;
  feqb := PrimFloat.eqb;
  fltb := PrimFloat.ltb;
  of_int := float_of_int;
  int_div := float_int_div;
  int_fits := fun n => Z.abs n <? float_max_int;
  div_fits := fun a b => Z.abs a <? float_max_int * Z.abs b
}.

(** The same operations read as exact arithmetic, where every integer
    fits. *)
#[export] Instance exact : Number Q := {
  fadd := Qplus;
  fsub := Qminus;
  fmul := Qmult;
  fdiv := Qdiv;
  fabs := Qabs;
  feqb := Qeq_bool;
  fltb := fun x y => negb (Qle_bool y x);
  of_int := inject_Z;
  int_div := fun a b => Qdiv (inject_Z a) (inject_Z b);
  int_fits := fun _ => true;
  div_fits := fun _ _ => true
}.

(** The conversion of an [int] operand that meets a [float]. *)
Definition float_of {F} `{Number F} (n : Z) : result F :=
  if int_fits n then Ok (of_int n) else Raise OverflowError.

(** [x / n] with a float [x] and an int [n], as Python evaluates it: the
    divisor is converted first and tested for zero next. *)
Definition truediv {F} `{Number F} (x : F) (n : Z) : result F :=
  bind (float_of n)
       (fun d => if n =? 0 then Raise ZeroDivisionError else Ok (fdiv x d)).

(** [a / b] with two ints. *)
Definition int_truediv {F} `{Number F} (a b : Z) : result F :=
  if b =? 0 then Raise ZeroDivisionError
  else if div_fits a b then Ok (int_div a b)
  else Raise OverflowError.

(** A rate as the pricing table gives it: neither NaN nor an infinity,
    and not negative. *)
Definition finite_nonneg (r : float) : bool :=
  ((0 <=? r) && (r <? infinity))%float.

(** The binary64 value a result holds, to tell two results apart. *)
Definition SF_of_result (r : result float) : spec_float :=
  match r with
  | Ok x => Prim2SF x
  | Raise _ => S754_nan
  end.

(** A number as a script holds it: an [int] or a [float].  The mixed
    operations convert the [int] operand. *)
Inductive num (F : Type) : Type :=
| NInt (n : Z)
| NFloat (x : F).
Arguments NInt {F} n.
Arguments NFloat {F} x.

Definition to_float {F} `{Number F} (a : num F) : result F :=
  match a with
  | NInt n => float_of n
  | NFloat x => Ok x
  end.

Definition num_sub {F} `{Number F} (a b : num F) : result (num F) :=
  match a, b with
  | NInt m, NInt n => Ok (NInt (m - n))
  | _, _ =>
      bind (to_float a) (fun x => bind (to_float b) (fun y => Ok (NFloat (fsub x y))))
  end.

Definition num_add {F} `{Number F} (a b : num F) : result (num F) :=
  match a, b with
  | NInt m, NInt n => Ok (NInt (m + n))
  | _, _ =>
      bind (to_float a) (fun x => bind (to_float b) (fun y => Ok (NFloat (fadd x y))))
  end.

Definition num_abs {F} `{Number F} (a : num F) : num F :=
  match a with
  | NInt n => NInt (Z.abs n)
  | NFloat x => NFloat (fabs x)
  end.

(** [a == 0] and [a > 0], which convert nothing. *)
Definition num_is_zero {F} `{Number F} (a : num F) : bool :=
  match a with
  | NInt n => n =? 0
  | NFloat x => feqb x (of_int 0)
  end.

Definition num_is_pos {F} `{Number F} (a : num F) : bool :=
  match a with
  | NInt n => 0 <? n
  | NFloat x => fltb (of_int 0) x
  end.

(** [a / b]. *)
Definition num_truediv {F} `{Number F} (a b : num F) : result F :=
  match a, b with
  | NInt m, NInt n => int_truediv m n
  | _, _ =>
      bind (to_float a)
           (fun x =>
              bind (to_float b)
                   (fun y =>
                      if num_is_zero b then Raise ZeroDivisionError
                      else Ok (fdiv x y)))
  end.

(** The sum of a list of rationals. *)
Definition Qsum (l : list Q) : Q := fold_right Qplus 0%Q l.

End Py.
Import Py.

(** ** JSON values and dictionaries *)

Module Json.

(** What [json.loads] returns.  An object is the list of its items, each
    key once, as a [dict] holds them. *)
Inductive json (F : Type) : Type :=
| JNull
| JBool (b : bool)
| JInt (n : Z)
| JFloat (x : F)
| JStr (s : string)
| JArr (l : list (json F))
| JObj (m : list (string * json F)).
Arguments JNull {F}.
Arguments JBool {F} b.
Arguments JInt {F} n.
Arguments JFloat {F} x.
Arguments JStr {F} s.
Arguments JArr {F} l.
Arguments JObj {F} m.

Definition dict (F : Type) : Type := list (string * json F).

Fixpoint assoc {A : Type} (key : string) (m : list (string * A)) : option A :=
  match m with
  | [] => None
  | (k, v) :: m' => if String.eqb key k then Some v else assoc key m'
  end.

(** [d.get(key, default)], [key in d] and [d[key]]. *)
Definition get {F} (d : dict F) (key : string) (default : json F) : json F :=
  match assoc key d with
  | Some v => v
  | None => default
  end.

Definition contains {F} (d : dict F) (key : string) : bool :=
  match assoc key d with
  | Some _ => true
  | None => false
  end.

Definition getitem {F} (d : dict F) (key : string) : result (json F) :=
  match assoc key d with
  | Some v => Ok v
  | None => Raise (KeyError key)
  end.

(** The number a value is in arithmetic: [bool] is a subclass of [int];
    the other values support neither [-] nor [+] with a number. *)
Definition as_num {F} (v : json F) : result (num F) :=
  match v with
  | JInt n => Ok (NInt n)
  | JBool b => Ok (NInt (if b then 1 else 0))
  | JFloat x => Ok (NFloat x)
  | _ => Raise TypeError
  end.

End Json.
Import Json.

Declare Scope py_scope.
Delimit Scope py_scope with py.
Infix "+" := fadd : py_scope.
Infix "-" := fsub : py_scope.
Infix "*" := fmul : py_scope.
Notation "x <- c ;; k" := (bind c (fun x => k))
  (at level 61, c at next level, right associativity) : py_scope.

(** ** Cost reconciliation *)

Module Cost.

(** One entry of the [daily] array of the reference tool, as the scripts
    read it: the four token counts and the reported cost. *)
Record entry (F : Type) : Type := {
  inputTokens : Z;
  outputTokens : Z;
  cacheCreationTokens : Z;
  cacheReadTokens : Z;
  totalCost : F
}.
Arguments inputTokens {F} e.
Arguments outputTokens {F} e.
Arguments cacheCreationTokens {F} e.
Arguments cacheReadTokens {F} e.
Arguments totalCost {F} e.

Record PricingRate (F : Type) : Type := {
  inputRate : F;
  outputRate : F;
  cacheCreationRate : F;
  cacheReadRate : F
}.
Arguments inputRate {F} p.
Arguments outputRate {F} p.
Arguments cacheCreationRate {F} p.
Arguments cacheReadRate {F} p.

Section Calculations.
Context {F : Type} `{Number F}.
Local Open Scope py_scope.

(** The four-term sum of [reverse_engineer_pricing.py], lines 34-37 and
    45-48, with the rates as parameters.  Each product converts its token
    count. *)
Definition forward_cost (e : entry F) (p : PricingRate F) : result F :=
  i <- float_of (inputTokens e) ;;
  o <- float_of (outputTokens e) ;;
  cc <- float_of (cacheCreationTokens e) ;;
  cr <- float_of (cacheReadTokens e) ;;
  Ok (i * inputRate p + o * outputRate p
      + cc * cacheCreationRate p + cr * cacheReadRate p).

(** [find_exact_cache_rate.py], lines 24-32: the cost of the input and
    output tokens at the known rates, what is left of the reported total,
    and that remainder per cache token.  The rates are the constants
    [input_rate] and [output_rate] of the script, parameters here. *)
Definition non_cache_cost (input_rate output_rate : F) (e : entry F) : result F :=
  i <- float_of (inputTokens e) ;;
  o <- float_of (outputTokens e) ;;
  Ok (i * input_rate + o * output_rate).

Definition cache_cost (input_rate output_rate : F) (e : entry F) : result F :=
  non_cache <- non_cache_cost input_rate output_rate e ;;
  Ok (totalCost e - non_cache).

Definition total_cache_tokens (e : entry F) : Z :=
  (cacheCreationTokens e + cacheReadTokens e)%Z.

(** Lines 24-32 without the test of line 31. *)
Definition effective_cache_rate (input_rate output_rate : F) (e : entry F)
  : result F :=
  c <- cache_cost input_rate output_rate e ;;
  truediv c (total_cache_tokens e).

(** Lines 43-45. *)
Definition test_cost (input_rate output_rate : F) (e : entry F) (rate : F)
  : result F :=
  i <- float_of (inputTokens e) ;;
  o <- float_of (outputTokens e) ;;
  t <- float_of (total_cache_tokens e) ;;
  Ok (i * input_rate + o * output_rate + t * rate).

(** Lines 24-46, what the script reports for the entry of the day: the
    effective rate and the cost recomputed with it, or nothing where the
    entry has no cache tokens.  Lines 24 and 27 come before the test. *)
Definition find_exact_cache_rate (input_rate output_rate : F) (e : entry F)
  : result (option (F * F)) :=
  c <- cache_cost input_rate output_rate e ;;
  if (0 <? total_cache_tokens e)%Z then
    rate <- truediv c (total_cache_tokens e) ;;
    recomputed <- test_cost input_rate output_rate e rate ;;
    Ok (Some (rate, recomputed))
  else Ok None.

(** The reported total replaced by a computed one. *)
Definition with_total (e : entry F) (t : F) : entry F :=
  {| inputTokens := inputTokens e; outputTokens := outputTokens e;
     cacheCreationTokens := cacheCreationTokens e;
     cacheReadTokens := cacheReadTokens e; totalCost := t |}.

(** The inversion as the specification writes it, the two costs subtracted
    one after the other: [(totalCost - inputTokens*inputRate -
    outputTokens*outputRate) / (cacheCreationTokens + cacheReadTokens)]. *)
Definition spec_effective_cache_rate (input_rate output_rate : F) (e : entry F)
  : result F :=
  i <- float_of (inputTokens e) ;;
  o <- float_of (outputTokens e) ;;
  truediv (totalCost e - i * input_rate - o * output_rate)
          (total_cache_tokens e).

(** Whether the four token counts of an entry fit a float. *)
Definition tokens_fit (e : entry F) : bool :=
  int_fits (inputTokens e) && int_fits (outputTokens e)
  && int_fits (cacheCreationTokens e) && int_fits (cacheReadTokens e).

End Calculations.

(** The constants of the scripts. *)
Definition sonnet_input : float := 3e-06%float.
Definition sonnet_output : float := 1.5e-05%float.
Definition cache_rate : float := 0.00000249%float.
Definition cache_rate2 : float := 3.75e-06%float.
Definition input_rate : float := 3e-06%float.
Definition output_rate : float := 1.5e-05%float.

Definition cost1 (e : entry float) : result float :=
  forward_cost e {| inputRate := sonnet_input; outputRate := sonnet_output;
                    cacheCreationRate := cache_rate; cacheReadRate := cache_rate |}.

Definition cost2 (e : entry float) : result float :=
  forward_cost e {| inputRate := sonnet_input; outputRate := sonnet_output;
                    cacheCreationRate := cache_rate2; cacheReadRate := cache_rate2 |}.

End Cost.
Import Cost.
(** ** The comparison of [compare_json.py] *)

Module Compare.

(** The five token metrics of a result, where all of them are [int]s; a
    metric that the dictionary lacks reads as 0. *)
Record aggregate : Type := {
  input : Z;
  output : Z;
  cache_create : Z;
  cache_read : Z;
  total : Z
}.

Definition metrics : list (string * string) :=
  [ ("Input", "inputTokens");
    ("Output", "outputTokens");
    ("Cache Create", "cacheCreationTokens");
    ("Cache Read", "cacheReadTokens");
    ("Total", "totalTokens") ]%string.

(** One line of the table: the label, the two values, the match mark and
    the difference. *)
Record row (F : Type) : Type := {
  label : string;
  ccusage_val : json F;
  swift_val : json F;
  matched : bool;
  diff : num F
}.
Arguments label {F} r.
Arguments ccusage_val {F} r.
Arguments swift_val {F} r.
Arguments matched {F} r.
Arguments diff {F} r.

(** The line under the table. *)
Inductive verdict (F : Type) : Type :=
| PerfectMatch
| Accuracy (accuracy : F) (total_diff : num F)
| SignificantDifferences (total_diff : num F).
Arguments PerfectMatch {F}.
Arguments Accuracy {F} accuracy total_diff.
Arguments SignificantDifferences {F} total_diff.

(** The variables of the loop of lines 100-113, and the lines printed. *)
Record loop_state (F : Type) : Type := {
  all_match : bool;
  total_diff : num F;
  table : list (row F)
}.
Arguments all_match {F} l.
Arguments total_diff {F} l.
Arguments table {F} l.




Section CompareResults.
Context {F : Type} `{Number F}.
Local Open Scope py_scope.

Definition int_metric (d : dict F) (key : string) : option Z :=
  match get d key (JInt 0) with
  | JInt n => Some n
  | _ => None
  end.

Definition tokens_of (d : dict F) : option aggregate :=
  match int_metric d "inputTokens", int_metric d "outputTokens",
        int_metric d "cacheCreationTokens", int_metric d "cacheReadTokens",
        int_metric d "totalTokens" with
  | Some i, Some o, Some cc, Some cr, Some t =>
      Some {| input := i; output := o; cache_create := cc; cache_read := cr;
              total := t |}
  | _, _, _, _, _ => None
  end.

(** Lines 104-113, one turn of the loop.  The subtraction of line 106
    and the addition of line 111 convert an [int] that meets a [float]. *)
Definition compare_metric (ccusage_data swift_data : dict F)
  (st : loop_state F) (metric : string * string) : result (loop_state F) :=
  let '(lbl, key) := metric in
  let ccusage_val := get ccusage_data key (JInt 0) in
  let swift_val := get swift_data key (JInt 0) in
  a <- as_num ccusage_val ;;
  b <- as_num swift_val ;;
  d <- num_sub a b ;;
  let diff := num_abs d in
  let matched := num_is_zero diff in
  let line := {| label := lbl; ccusage_val := ccusage_val;
                 swift_val := swift_val; matched := matched; diff := diff |} in
  if matched
  then Ok {| all_match := all_match st; total_diff := total_diff st;
             table := table st ++ [line] |}
  else
    sum <- num_add (total_diff st) diff ;;
    Ok {| all_match := false; total_diff := sum; table := table st ++ [line] |}.

Fixpoint compare_loop (ccusage_data swift_data : dict F)
  (st : loop_state F) (ms : list (string * string)) : result (loop_state F) :=
  match ms with
  | [] => Ok st
  | m :: ms' =>
      st' <- compare_metric ccusage_data swift_data st m ;;
      compare_loop ccusage_data swift_data st' ms'
  end.

(** Lines 117-125.  The literal [1.0] is [of_int 1], which is exact; the
    division of line 122 raises [OverflowError] on a quotient, or an
    operand, that no float holds. *)
Definition summary (ccusage_data : dict F) (st : loop_state F)
  : result (verdict F) :=
  if all_match st then Ok PerfectMatch
  else
    ccusage_total <- as_num (get ccusage_data "totalTokens" (JInt 0)) ;;
    if num_is_pos ccusage_total then
      q <- num_truediv (total_diff st) ccusage_total ;;
      Ok (Accuracy ((of_int 1 - q) * of_int 100) (total_diff st))
    else Ok (SignificantDifferences (total_diff st)).

(** [compare_results]: the table, the line under it and the value
    returned. *)
Definition compare_results (ccusage_data swift_data : dict F)
  : result (list (row F) * verdict F * bool) :=
  st <- compare_loop ccusage_data swift_data
          {| all_match := true; total_diff := NInt 0; table := [] |} metrics ;;
  v <- summary ccusage_data st ;;
  Ok (table st, v, all_match st).


End CompareResults.

End Compare.

(** ** The log scanner of [check_costUSD_field.py] *)

Module Scan.

(** A line that the iteration of line 16 hands out, by what lines 17 and
    18 make of it: blank (the test of line 17 fails), one on which
    [json.loads] raises, or one that parses to a value. *)
Inductive line (F : Type) : Type :=
| Blank
| Malformed
| Parsed (data : json F).
Arguments Blank {F}.
Arguments Malformed {F}.
Arguments Parsed {F} data.

(** A file that [rglob] yields: one that [open] refuses; the lines of one
    that is read to its end; or one holding bytes that are no text.  The
    file is read and decoded a block at a time, and the iteration of line
    16 raises [UnicodeDecodeError] when it comes to the block with such
    bytes: [handed] are the lines that it handed out from the blocks
    before, [lost] the lines of the file that it never hands out, those
    that stand before the bytes in their block among them. *)
Inductive file (F : Type) : Type :=
| Unreadable
| Lines (ls : list (line F))
| DecodeFails (handed lost : list (line F)).
Arguments Unreadable {F}.
Arguments Lines {F} ls.
Arguments DecodeFails {F} handed lost.

(** The three variables of lines 8-10. *)
Record tally (F : Type) : Type := {
  has_cost : Z;
  no_cost : Z;
  total_cost_from_field : F
}.
Arguments has_cost {F} t.
Arguments no_cost {F} t.
Arguments total_cost_from_field {F} t.

(** What lines 26, 28, 32 and 34 print: an entry with its [costUSD], an
    entry without, and the model of an entry. *)
Inductive printed (F : Type) : Type :=
| EntryWithCost (cost : json F)
| EntryWithoutCost
| ModelLine (model : json F).
Arguments EntryWithCost {F} cost.
Arguments EntryWithoutCost {F}.
Arguments ModelLine {F} model.

Section Scanner.
Context {F : Type} `{Number F}.

(** The standard output, by the lines it takes: [print] raises on a line
    that the stream cannot encode, [UnicodeEncodeError], inside the [try]
    of line 14. *)
Variable accepts : printed F -> bool.

(** The date of lines 12 and 21, ['2025-06-09'] in the script. *)
Variable date_prefix : string.

Definition print (p : printed F) : result unit :=
  if accepts p then Ok tt else Raise UnicodeEncodeError.

Definition is_model {G : Type} (v : json G) : bool :=
  match v with
  | JStr s => String.eqb s "model"
  | _ => false
  end.

(** Lines 27-28 and 33-34, the model of an example entry.  The test can
    raise: ['model' in x] needs a container [x], and [x['model']] a
    dictionary. *)
Definition show_model (data : dict F) : result unit :=
  match assoc "message" data with
  | None => Ok tt
  | Some (JObj message) =>
      match assoc "model" message with
      | Some model => print (ModelLine model)
      | None => Ok tt
      end
  | Some (JStr s) =>
      match index 0 "model" s with
      | Some _ => Raise TypeError
      | None => Ok tt
      end
  | Some (JArr l) => if existsb is_model l then Raise TypeError else Ok tt
  | Some _ => Raise TypeError
  end.

Definition raised {A : Type} (r : result A) : option exn :=
  match r with
  | Ok _ => None
  | Raise e => Some e
  end.

(** [total_cost_from_field + data['costUSD']] of line 24, the right
    operand converted where it is an [int]. *)
Definition add_cost (total : F) (cost : json F) : result F :=
  (c <- as_num cost ;;
   x <- to_float c ;;
   Ok (fadd total x))%py.

(** Lines 19-34 on one parsed line: the variables afterwards, and the
    exception that left the lines early, if any.  Line 23 is executed
    before line 24 can raise, and line 24 before the lines that print. *)
Definition scan_record (st : tally F) (data : json F) : tally F * option exn :=
  match data with
  | JObj d =>
      match get d "timestamp" (JStr "") with
      | JStr timestamp =>
          if prefix date_prefix timestamp then
            if contains d "costUSD" then
              let st1 := {| has_cost := has_cost st + 1; no_cost := no_cost st;
                            total_cost_from_field := total_cost_from_field st |} in
              match add_cost (total_cost_from_field st1) (get d "costUSD" JNull) with
              | Raise e => (st1, Some e)
              | Ok sum =>
                  let st2 :=
                    {| has_cost := has_cost st1; no_cost := no_cost st1;
                       total_cost_from_field := sum |} in
                  if has_cost st2 <=? 3
                  then (st2, raised (_ <- print (EntryWithCost (get d "costUSD" JNull)) ;;
                                     show_model d)%py)
                  else (st2, None)
              end
            else
              let st1 := {| has_cost := has_cost st; no_cost := no_cost st + 1;
                            total_cost_from_field := total_cost_from_field st |} in
              if no_cost st1 <=? 3
              then (st1, raised (_ <- print EntryWithoutCost ;; show_model d)%py)
              else (st1, None)
          else (st, None)
      | _ => (st, Some AttributeError)
      end
  | _ => (st, Some AttributeError)
  end.

(** Lines 16-34 on the lines handed out.  An exception ends the [with]
    block: the handler of lines 35-36 encloses the whole file. *)
Fixpoint scan_lines (st : tally F) (ls : list (line F)) : tally F :=
  match ls with
  | [] => st
  | Blank :: ls' => scan_lines st ls'
  | Malformed :: _ => st
  | Parsed data :: ls' =>
      match scan_record st data with
      | (st', None) => scan_lines st' ls'
      | (st', Some _) => st'
      end
  end.

(** Lines 14-36 on one file. *)
Definition scan_file (st : tally F) (f : file F) : tally F :=
  match f with
  | Unreadable => st
  | Lines ls => scan_lines st ls
  | DecodeFails handed _ => scan_lines st handed
  end.

Definition scan_from (st : tally F) (files : list (file F)) : tally F :=
  fold_left scan_file files st.

(** Lines 8-36. *)
Definition scan (files : list (file F)) : tally F :=
  scan_from {| has_cost := 0; no_cost := 0; total_cost_from_field := of_int 0 |}
            files.

Definition is_number {G : Type} (v : json G) : bool :=
  match v with
  | JInt _ | JFloat _ | JBool _ => true
  | _ => false
  end.

(** A number that line 24 can add: a [float], or an [int] that a float
    holds. *)
Definition addable (v : json F) : bool :=
  match v with
  | JInt n => int_fits n
  | JBool b => int_fits (if b then 1 else 0)
  | JFloat _ => true
  | _ => false
  end.

(** A usage record as the data model has it, on this output stream: an
    object whose [timestamp], if any, is a string, whose [costUSD], if
    any, is a number that a float holds, and whose [message], if any, is
    an object; and the stream takes the lines that show the record. *)
Definition usage_record (data : json F) : bool :=
  match data with
  | JObj d =>
      match get d "timestamp" (JStr "") with
      | JStr _ => true
      | _ => false
      end
      && match assoc "costUSD" d with
         | Some cost => addable cost && accepts (EntryWithCost cost)
         | None => accepts EntryWithoutCost
         end
      && match assoc "message" d with
         | Some (JObj message) =>
             match assoc "model" message with
             | Some model => accepts (ModelLine model)
             | None => true
             end
         | None => true
         | Some _ => false
         end
  | _ => false
  end.

Definition usage_line (l : line F) : bool :=
  match l with
  | Blank => true
  | Malformed => false
  | Parsed data => usage_record data
  end.

(** A file of usage records: it is read to its end. *)
Definition usage_file (f : file F) : bool :=
  match f with
  | Unreadable => true
  | Lines ls => forallb usage_line ls
  | DecodeFails _ _ => false
  end.

(** The records of the files, in the order of the scan. *)
Definition records_of_line (l : line F) : list (json F) :=
  match l with
  | Parsed data => [data]
  | _ => []
  end.

Definition records_of_file (f : file F) : list (json F) :=
  match f with
  | Unreadable => []
  | Lines ls => flat_map records_of_line ls
  | DecodeFails handed lost => flat_map records_of_line (handed ++ lost)
  end.

Definition records (files : list (file F)) : list (json F) :=
  flat_map records_of_file files.

(** Whether a record is of the day, and the cost it carries. *)
Definition of_the_day (data : json F) : bool :=
  match data with
  | JObj d =>
      match get d "timestamp" (JStr "") with
      | JStr timestamp => prefix date_prefix timestamp
      | _ => false
      end
  | _ => false
  end.

Definition cost_of (data : json F) : option (num F) :=
  match data with
  | JObj d =>
      match assoc "costUSD" d with
      | Some v => match as_num v with Ok c => Some c | Raise _ => None end
      | None => None
      end
  | _ => None
  end.

(** The float that a number is, for an [int] that a float holds. *)
Definition value_of (c : num F) : F :=
  match c with
  | NInt n => of_int n
  | NFloat x => x
  end.

(** What a usage record adds to each of the two counts. *)
Definition with_cost (data : json F) : Z :=
  if of_the_day data
  then match cost_of data with Some _ => 1 | None => 0 end
  else 0.

Definition without_cost (data : json F) : Z :=
  if of_the_day data
  then match cost_of data with Some _ => 0 | None => 1 end
  else 0.

Definition cost_added (data : json F) : F :=
  if of_the_day data
  then match cost_of data with Some c => value_of c | None => of_int 0 end
  else of_int 0.

(** The variables after a usage record, which raises nothing. *)
Definition tally_record (st : tally F) (data : json F) : tally F :=
  {| has_cost := has_cost st + with_cost data;
     no_cost := no_cost st + without_cost data;
     total_cost_from_field :=
       if of_the_day data
       then match cost_of data with
            | Some c => fadd (total_cost_from_field st) (value_of c)
            | None => total_cost_from_field st
            end
       else total_cost_from_field st |}.

(** Modelled from the spec: the four token sums of the aggregate (section
    4.2, "Aggregation sums the four token fields").  The scanner among the
    sources keeps no token sums, and where a record holds its four counts
    is not in the sources either: [usage] reads them. *)
Variable usage : json F -> Z * Z * Z * Z.

Definition add_tokens (sums : Z * Z * Z * Z) (data : json F) : Z * Z * Z * Z :=
  if of_the_day data then
    let '(i, o, cc, cr) := sums in
    let '(i', o', cc', cr') := usage data in
    (i + i', o + o', cc + cc', cr + cr')
  else sums.

Definition token_sums (rs : list (json F)) : Z * Z * Z * Z :=
  fold_left add_tokens rs (0, 0, 0, 0).

End Scanner.

(** The script, on an output stream. *)
Definition check_costUSD_field (accepts : printed float -> bool)
  : list (file float) -> tally float :=
  scan accepts "2025-06-09".

(** A stream that takes every line, as one in UTF-8 takes every line of
    well-formed text. *)
Definition any_line {F : Type} (p : printed F) : bool := true.

End Scan.

(** ** The fetchers and [main] of [compare_json.py] *)

Module Fetch.

(** What [subprocess.run] returns.  The text of the standard output is
    held as what [json.loads] makes of it: the value, or the exception. *)
Record completed (F : Type) : Type := {
  returncode : Z;
  stdout : result (json F);
  stderr : string
}.
Arguments returncode {F} c.
Arguments stdout {F} c.
Arguments stderr {F} c.

(** How the external command behaves: it exits after some seconds; it
    exits after some seconds with output that is no text, which
    [text=True] refuses to decode; it never exits; or it cannot be
    started. *)
Inductive process (F : Type) : Type :=
| Exits (seconds : Q) (c : completed F)
| Garbles (seconds : Q)
| Hangs
| CannotStart (msg : string).
Arguments Exits {F} seconds c.
Arguments Garbles {F} seconds.
Arguments Hangs {F}.
Arguments CannotStart {F} msg.

(** What running a piece of a script comes to. *)
Inductive outcome (A : Type) : Type :=
| Returns (a : A)
| Raises (e : exn)
| Diverges.
Arguments Returns {A} a.
Arguments Raises {A} e.
Arguments Diverges {A}.

(** One call of [subprocess.run]: the timeout it was given, and the
    seconds it waited, [None] for ever. *)
Record call : Type := {
  call_timeout : option Q;
  call_waited : option Q
}.

(** A line on the error stream: a text, a text followed by an exception,
    [f"...{e}"], or the traceback that the interpreter writes for an
    exception that nothing catches. *)
Inductive message : Type :=
| Text (s : string)
| TextExn (s : string) (e : exn)
| Traceback (e : exn).

(** What a script does to the world, in order: the commands it runs and
    the lines it writes to the error stream. *)
Inductive event : Type :=
| Run (c : call)
| Stderr (m : message).

(** A piece of a script: what it does, and what it comes to. *)
Definition prog (A : Type) : Type := list event * outcome A.

Definition ret {A} (a : A) : prog A := ([], Returns a).

Definition and_then {A B} (p : prog A) (k : A -> prog B) : prog B :=
  match p with
  | (log, Returns a) => ((log ++ fst (k a))%list, snd (k a))
  | (log, Raises e) => (log, Raises e)
  | (log, Diverges) => (log, Diverges)
  end.

Definition lift {A} (r : result A) : prog A :=
  match r with
  | Ok a => ([], Returns a)
  | Raise e => ([], Raises e)
  end.

(** [print(..., file=sys.stderr)]; the error stream escapes what it cannot
    encode. *)
Definition write (m : message) : prog unit := ([Stderr m], Returns tt).

(** [try: p except Exception as e: handler e]. *)
Definition try_except {A} (p : prog A) (handler : exn -> prog A) : prog A :=
  match p with
  | (log, Raises e) => ((log ++ fst (handler e))%list, snd (handler e))
  | _ => p
  end.


(** The calls that a script makes, and the lines it writes. *)
Definition calls_of (log : list event) : list call :=
  flat_map (fun ev => match ev with Run c => [c] | Stderr _ => [] end) log.


Section Fetchers.
Context {F : Type} `{Number F}.

(** [subprocess.run(..., timeout=t)]: with a timeout the call waits no
    longer than that and raises [TimeoutExpired]; without one it waits for
    the command to exit. *)
Definition subprocess_run (timeout : option Q) (p : process F)
  : prog (completed F) :=
  let called w o := ([Run {| call_timeout := timeout; call_waited := w |}], o) in
  match p, timeout with
  | CannotStart msg, _ => called (Some 0%Q) (Raises (OSError msg))
  | Hangs, Some t => called (Some t) (Raises TimeoutExpired)
  | Hangs, None => called None Diverges
  | Exits seconds c, Some t =>
      if Qle_bool seconds t then called (Some seconds) (Returns c)
      else called (Some t) (Raises TimeoutExpired)
  | Exits seconds c, None => called (Some seconds) (Returns c)
  | Garbles seconds, Some t =>
      if Qle_bool seconds t then called (Some seconds) (Raises UnicodeDecodeError)
      else called (Some t) (Raises TimeoutExpired)
  | Garbles seconds, None => called (Some seconds) (Raises UnicodeDecodeError)
  end.

(** [for x in v]: the values a loop over [v] visits. *)
Definition iter_values (v : json F) : result (list (json F)) :=
  match v with
  | JArr l => Ok l
  | JStr s => Ok (map (fun c => JStr (String c EmptyString)) (list_ascii_of_string s))
  | JObj m => Ok (map (fun kv => JStr (fst kv)) m)
  | _ => Raise TypeError
  end.

(** The dictionary of lines 22-31 and 61-70. *)
Definition build (tool : string) (entry : dict F) : result (dict F) :=
  (date <- getitem entry "date" ;;
   i <- getitem entry "inputTokens" ;;
   o <- getitem entry "outputTokens" ;;
   cc <- getitem entry "cacheCreationTokens" ;;
   cr <- getitem entry "cacheReadTokens" ;;
   t <- getitem entry "totalTokens" ;;
   Ok [ ("tool", JStr tool); ("date", date); ("inputTokens", i);
        ("outputTokens", o); ("cacheCreationTokens", cc);
        ("cacheReadTokens", cr); ("totalTokens", t);
        ("totalCost", get entry "totalCost" (JInt 0)) ])%py%string.

Definition is_target_date (v : json F) : bool :=
  match v with
  | JStr s => String.eqb s "2025-06-09"
  | _ => false
  end.

(** Lines 20-31. *)
Fixpoint find_day (entries : list (json F)) : result (option (dict F)) :=
  match entries with
  | [] => Ok None
  | JObj entry :: rest =>
      if is_target_date (get entry "date" JNull)
      then (d <- build "ccusage" entry ;; Ok (Some d))%py
      else find_day rest
  | _ :: _ => Raise AttributeError
  end.

Definition daily_of (data : json F) : result (json F) :=
  match data with
  | JObj d => Ok (get d "daily" (JArr []))
  | _ => Raise AttributeError
  end.

(** Lines 11-34, the body of the [try]: one call of the command, with a
    timeout of 30 seconds. *)
Definition ccusage_body (p : process F) : prog (option (dict F)) :=
  and_then (subprocess_run (Some 30%Q) p) (fun result =>
    if negb (returncode result =? 0)
    then and_then (write (Text ("ccusage failed: " ++ stderr result)))
                  (fun _ => ret None)
    else
      and_then (lift (data <- stdout result ;;
                      daily <- daily_of data ;;
                      entries <- iter_values daily ;;
                      find_day entries)%py)
               (fun found =>
                  match found with
                  | Some d => ret (Some d)
                  | None =>
                      and_then
                        (write (Text "No data found for 2025-06-09 in ccusage output"))
                        (fun _ => ret None)
                  end)).

(** Lines 36-44, the handlers: the line each of them writes. *)
Definition ccusage_failure (e : exn) : message :=
  match e with
  | TimeoutExpired => Text "ccusage timed out"
  | JSONDecodeError _ => TextExn "Failed to parse ccusage JSON: " e
  | _ => TextExn "Error running ccusage: " e
  end.

Definition ccusage_handler (e : exn) : prog (option (dict F)) :=
  and_then (write (ccusage_failure e)) (fun _ => ret None).

(** [run_ccusage_json]: what it does and what it returns. *)
Definition run_ccusage_json (p : process F) : prog (option (dict F)) :=
  try_except (ccusage_body p) ccusage_handler.

(** [if daily_data:] of line 59. *)
Definition truthy (v : json F) : bool :=
  match v with
  | JNull => false
  | JBool b => b
  | JInt n => negb (n =? 0)
  | JFloat x => negb (feqb x (of_int 0))
  | JStr s => negb (String.eqb s "")
  | JArr l => match l with [] => false | _ => true end
  | JObj m => match m with [] => false | _ => true end
  end.

(** [daily_data[0]] of line 60. *)
Definition first_of (v : json F) : result (json F) :=
  match v with
  | JArr (x :: _) => Ok x
  | JArr [] => Raise IndexError
  | JStr (String c _) => Ok (JStr (String c EmptyString))
  | JStr EmptyString => Raise IndexError
  | JObj _ => Raise (KeyError "0")
  | _ => Raise TypeError
  end.

(** Lines 49-73. *)
Definition swift_body (p : process F) : prog (option (dict F)) :=
  and_then (subprocess_run (Some 30%Q) p) (fun result =>
    if negb (returncode result =? 0)
    then and_then (write (Text ("Swift CLI failed: " ++ stderr result)))
                  (fun _ => ret None)
    else
      and_then (lift (data <- stdout result ;;
                      daily_data <- daily_of data ;;
                      if truthy daily_data then
                        entry <- first_of daily_data ;;
                        match entry with
                        | JObj e => d <- build "swift_cli" e ;; Ok (Some d)
                        | _ => Raise TypeError
                        end
                      else Ok None)%py)
               (fun found =>
                  match found with
                  | Some d => ret (Some d)
                  | None =>
                      and_then
                        (write (Text "No daily data found in Swift CLI output"))
                        (fun _ => ret None)
                  end)).

(** Lines 75-80. *)
Definition swift_failure (e : exn) : message :=
  match e with
  | JSONDecodeError _ => TextExn "Failed to parse Swift CLI JSON: " e
  | _ => TextExn "Error running Swift CLI: " e
  end.

Definition swift_handler (e : exn) : prog (option (dict F)) :=
  and_then (write (swift_failure e)) (fun _ => ret None).

Definition run_swift_cli_json (p : process F) : prog (option (dict F)) :=
  try_except (swift_body p) swift_handler.

(** Lines 7-9 of [find_exact_cache_rate.py], [compare_cost_not_tokens.py],
    [reverse_engineer_pricing.py] and [test_cost.py]: the same command,
    with no timeout, no test of the exit code and no handler. *)
Definition fetch_daily (p : process F) : prog (json F) :=
  and_then (subprocess_run None p) (fun result => lift (stdout result)).

(** [not x] on what a fetcher returns. *)
Definition missing (data : option (dict F)) : bool :=
  match data with
  | Some (_ :: _) => false
  | _ => true
  end.





End Fetchers.

End Fetch.

(** ** Sample data *)

Module Samples.

Definition record_with_cost (cost : float) : json float :=
  JObj [ ("timestamp", JStr "2025-06-09T10:15:00.000Z");
         ("costUSD", JFloat cost);
         ("message", JObj [("model", JStr "claude-sonnet-4-20250514")]) ]%string.

Definition record_without_timestamp : dict float :=
  [ ("costUSD", JFloat 0.25%float) ]%string.


Definition swift_sample : dict float :=
  [ ("tool", JStr "swift_cli"); ("date", JStr "2025-06-09");
    ("inputTokens", JInt 90); ("outputTokens", JInt 195);
    ("cacheCreationTokens", JInt 300); ("cacheReadTokens", JInt 400);
    ("totalTokens", JInt 985); ("totalCost", JFloat 1.5%float) ]%string.




(** A command that prints no JSON and exits with status 1. *)
Definition failed_process : Fetch.process float :=
  Fetch.Exits 1%Q
    {| Fetch.returncode := 1;
       Fetch.stdout := Raise (JSONDecodeError "Expecting value: line 1 column 1 (char 0)");
       Fetch.stderr := "npm error" |}.

End Samples.

(** ** The whole of [find_exact_cache_rate.py] *)

Module CacheRateScript.

Section Script.
Context {F : Type} `{Number F}.

(** Lines 11-12 and 48: the loop stops at the first entry of the day. *)
Fixpoint find_entry (entries : list (json F)) : result (option (dict F)) :=
  match entries with
  | [] => Ok None
  | JObj entry :: rest =>
      if Fetch.is_target_date (get entry "date" JNull)
      then Ok (Some entry)
      else find_entry rest
  | _ :: _ => Raise AttributeError
  end.

(** Lines 13-46 on the entry of the day, with the values as JSON has
    them.  Lines 13-17 read the five keys.  The arithmetic of lines 24-32
    takes numbers, operand by operand: each product of line 24 raises
    [TypeError] on what is no number and [OverflowError] on an [int] that
    no float holds, before the next operand is looked at and before
    anything is printed.  The standard output is taken to accept what is
    printed. *)
Definition cache_rate_of_entry (input_rate output_rate : F) (entry : dict F)
  : result (option (F * F)) :=
  (input_tokens <- getitem entry "inputTokens" ;;
   output_tokens <- getitem entry "outputTokens" ;;
   cache_create <- getitem entry "cacheCreationTokens" ;;
   cache_read <- getitem entry "cacheReadTokens" ;;
   total_cost <- getitem entry "totalCost" ;;
   i <- as_num input_tokens ;;
   i <- to_float i ;;
   o <- as_num output_tokens ;;
   o <- to_float o ;;
   let non_cache_cost := (i * input_rate + o * output_rate) in
   t <- as_num total_cost ;;
   t <- to_float t ;;
   let cache_cost := (t - non_cache_cost) in
   cc <- as_num cache_create ;;
   cr <- as_num cache_read ;;
   total_cache_tokens <- num_add cc cr ;;
   if num_is_pos total_cache_tokens then
     effective_cache_rate <- num_truediv (NFloat cache_cost) total_cache_tokens ;;
     tokens <- to_float total_cache_tokens ;;
     let test_cost := (i * input_rate + o * output_rate
                       + tokens * effective_cache_rate) in
     Ok (Some (effective_cache_rate, test_cost))
   else Ok None)%py.

(** Lines 7-48: the script, from the command to what it reports. *)
Definition script (input_rate output_rate : F) (p : Fetch.process F)
  : Fetch.prog (option (F * F)) :=
  Fetch.and_then (Fetch.fetch_daily p) (fun data =>
    Fetch.lift
      (daily <- Fetch.daily_of data ;;
       entries <- Fetch.iter_values daily ;;
       found <- find_entry entries ;;
       match found with
       | Some entry => cache_rate_of_entry input_rate output_rate entry
       | None => Ok None
       end)%py).

End Script.

End CacheRateScript.

(** ** Shapes of input, to state what the code does on them *)

Module Shape.

Section Shapes.
Context {F : Type} `{Number F}.






(** An entry of the [daily] array that is an object of another day. *)
Definition other_day (v : json F) : bool :=
  match v with
  | JObj entry => negb (Fetch.is_target_date (get entry "date" JNull))
  | _ => false
  end.

(** An element of the [daily] array that is no object. *)
Definition not_object (v : json F) : bool :=
  match v with
  | JObj _ => false
  | _ => true
  end.

(** The keys that [build] reads with [entry[...]], in the order it reads
    them, and the first of them that an entry lacks. *)
Definition required_keys : list string :=
  [ "date"; "inputTokens"; "outputTokens"; "cacheCreationTokens";
    "cacheReadTokens"; "totalTokens" ]%string.

Definition first_missing (entry : dict F) : option string :=
  find (fun key => negb (contains entry key)) required_keys.

(** A parsed line without a [get], or whose timestamp has no
    [startswith]. *)
Definition no_timestamp_test (v : json F) : bool :=
  match v with
  | JObj d =>
      match get d "timestamp" (JStr "") with
      | JStr _ => false
      | _ => true
      end
  | _ => true
  end.


(** The parsed lines among the lines that the files hand out. *)
Definition parsed_in_line (l : Scan.line F) : Z :=
  match l with
  | Scan.Parsed _ => 1
  | _ => 0
  end.

Definition parsed_in_file (f : Scan.file F) : Z :=
  match f with
  | Scan.Unreadable => 0
  | Scan.Lines ls => fold_right Z.add 0 (map parsed_in_line ls)
  | Scan.DecodeFails handed _ => fold_right Z.add 0 (map parsed_in_line handed)
  end.

Definition parsed_lines (files : list (Scan.file F)) : Z :=
  fold_right Z.add 0 (map parsed_in_file files).

(** The records of the day among a list of records. *)
Definition day_count (date_prefix : string) (rs : list (json F)) : Z :=
  Z.of_nat (List.length (filter (Scan.of_the_day date_prefix) rs)).

(** The one call that a fetcher of [compare_json.py] makes, and the one
    call of a one-off script. *)
Definition bounded_call (waited : Q) : Fetch.event :=
  Fetch.Run {| Fetch.call_timeout := Some 30%Q; Fetch.call_waited := Some waited |}.

Definition unbounded_call (waited : option Q) : Fetch.event :=
  Fetch.Run {| Fetch.call_timeout := None; Fetch.call_waited := waited |}.

End Shapes.

End Shape.

(** ** More sample data *)

Module Cases.

(** An [int] of 401 digits, which JSON can hold and no float can. *)
Definition huge : Z := 10 ^ 400.

Definition entry_on (date : string) (i o cc cr t : Z) : dict float :=
  [ ("date", JStr date); ("inputTokens", JInt i);
    ("outputTokens", JInt o); ("cacheCreationTokens", JInt cc);
    ("cacheReadTokens", JInt cr); ("totalTokens", JInt t) ]%string.

Definition prints (daily : list (json float)) : Fetch.completed float :=
  {| Fetch.returncode := 0;
     Fetch.stdout := Ok (JObj [("daily", JArr daily)]%string);
     Fetch.stderr := "" |}.

(** The day after another day, and something that is no entry after it. *)
Definition two_days : list (json float) :=
  [ JObj (entry_on "2025-06-08" 1 2 3 4 10);
    JObj (entry_on "2025-06-09" 100 200 300 400 1000);
    JNull ].

Definition another_day : list (json float) :=
  [ JObj (entry_on "2025-06-08" 1 2 3 4 10) ].



(** An entry of the day with its cost, after an entry of another day, as
    printed by a command that takes 100 seconds and exits with status 1. *)
Definition priced_entry : dict float :=
  (entry_on "2025-06-09" 1000000 500000 100000 0 1600000
   ++ [("totalCost"%string, JFloat 10.5%float)])%list.

Definition slow_failing_command : Fetch.process float :=
  Fetch.Exits 100%Q
    {| Fetch.returncode := 1;
       Fetch.stdout :=
         Ok (JObj [("daily",
                    JArr [JObj (entry_on "2025-06-08" 1 2 3 4 10);
                          JObj priced_entry])]%string);
       Fetch.stderr := "" |}.

(** Log records: one whose cost is a string, one of another day whose cost
    is null, one without a cost, one whose message is null, and one whose
    cost is an [int] of 401 digits. *)
Definition cost_as_string : dict float :=
  [ ("timestamp", JStr "2025-06-09T08:00:00.000Z"); ("costUSD", JStr "0.25") ]%string.

Definition of_another_day : dict float :=
  [ ("timestamp", JStr "2025-06-08T23:59:59.000Z"); ("costUSD", JNull) ]%string.

Definition without_cost : dict float :=
  [ ("timestamp", JStr "2025-06-09T11:30:00.000Z") ]%string.


Definition huge_cost : dict float :=
  [ ("timestamp", JStr "2025-06-09T07:00:00.000Z"); ("costUSD", JInt huge) ]%string.

(** A model name that is no well-formed text, as [json.loads] makes of
    an escaped lone surrogate, and a stream that takes every line but the
    one showing it. *)
Definition lone_surrogate : string :=
  String (ascii_of_nat 237) (String (ascii_of_nat 160) (String (ascii_of_nat 128) "")).

Definition surrogate_model : dict float :=
  [ ("timestamp", JStr "2025-06-09T06:00:00.000Z"); ("costUSD", JFloat 0.5%float);
    ("message", JObj [("model", JStr lone_surrogate)]) ]%string.

Definition utf8_stream (p : Scan.printed float) : bool :=
  match p with
  | Scan.ModelLine (JStr s) => negb (String.eqb s lone_surrogate)
  | _ => true
  end.

End Cases.

(** * Properties *)

(** ** Facts about binary64 used below *)

Section Binary64.
Local Open Scope float_scope.

(** The largest [int] that [float] converts is the one below
    [float_max_int], which rounds to the largest float; [float_max_int]
    itself rounds beyond the floats.  The same holds of the quotient of
    two [int]s. *)
Example float_max_int_boundary :
  int_fits (F := float) (float_max_int - 1) = true
  /\ Prim2SF (float_of_int (float_max_int - 1))
     = S754_finite false 9007199254740991 971
  /\ int_fits (F := float) float_max_int = false
  /\ binary_normalize prec emax float_max_int 0 false = S754_infinity false
  /\ div_fits (F := float) (3 * float_max_int - 1) 3 = true
  /\ Prim2SF (float_int_div (3 * float_max_int - 1) 3)
     = S754_finite false 9007199254740991 971
  /\ div_fits (F := float) (3 * float_max_int) 3 = false
  /\ SFdiv prec emax (SF_of_int (3 * float_max_int)) (SF_of_int 3)
     = S754_infinity false.
Proof.
  do 7 (split; [vm_compute; reflexivity |]). vm_compute. reflexivity.
Qed.

Lemma finite_nonneg_spec r :
  finite_nonneg r = true ->
  (exists s, Prim2SF r = S754_zero s) \/ (exists m e, Prim2SF r = S754_finite false m e).
Proof.
  unfold finite_nonneg. rewrite andb_true_iff, leb_spec, ltb_spec.
  replace (Prim2SF 0) with (S754_zero false) by reflexivity.
  replace (Prim2SF infinity) with (S754_infinity false) by reflexivity.
  destruct (Prim2SF r) as [s | [|] | | [|] m e]; cbn; intros [H0 H1];
    try discriminate; [left; now exists s | right; now exists m, e].
Qed.

(** No tokens of a category cost nothing, whatever its rate. *)
Lemma zero_tokens_cost r :
  finite_nonneg r = true -> exists s, Prim2SF (float_of_int 0 * r) = S754_zero s.
Proof.
  intros Hr. rewrite mul_spec.
  replace (Prim2SF (float_of_int 0)) with (S754_zero false) by reflexivity.
  destruct (finite_nonneg_spec r Hr) as [[s ->] | (m & e & ->)]; cbn; eauto.
Qed.

Lemma add_signed_zero x z sx mx ex s :
  Prim2SF x = S754_finite sx mx ex -> Prim2SF z = S754_zero s -> x + z = x.
Proof.
  intros Hx Hz. apply Prim2SF_inj. rewrite add_spec, Hx, Hz. reflexivity.
Qed.

End Binary64.

Ltac results_differ :=
  let Heq := fresh "Heq" in
  intros Heq; apply (f_equal SF_of_result) in Heq;
  vm_compute in Heq; discriminate Heq.

(** ** Conversions *)

Section Conversions.
Context {F : Type} {N : Number F}.

Lemma float_of_fits (n : Z) : int_fits n = true -> float_of n = Ok (of_int n).
Proof.
  intros Hn. unfold float_of. now rewrite Hn.
Qed.

Lemma float_of_overflow (n : Z) :
  int_fits n = false -> float_of n = Raise OverflowError.
Proof.
  intros Hn. unfold float_of. now rewrite Hn.
Qed.

Lemma truediv_cases (x : F) (n : Z) :
  truediv x n
  = if int_fits n
    then if n =? 0 then Raise ZeroDivisionError else Ok (fdiv x (of_int n))
    else Raise OverflowError.
Proof.
  unfold truediv, float_of. destruct (int_fits n); reflexivity.
Qed.

Lemma forward_cost_cases (e : entry F) (p : PricingRate F) :
  forward_cost e p
  = if tokens_fit e
    then Ok (of_int (inputTokens e) * inputRate p
             + of_int (outputTokens e) * outputRate p
             + of_int (cacheCreationTokens e) * cacheCreationRate p
             + of_int (cacheReadTokens e) * cacheReadRate p)%py
    else Raise OverflowError.
Proof.
  unfold forward_cost, tokens_fit, float_of.
  destruct (int_fits (inputTokens e)), (int_fits (outputTokens e)),
    (int_fits (cacheCreationTokens e)), (int_fits (cacheReadTokens e)); reflexivity.
Qed.

Lemma test_cost_cases (ir or : F) (e : entry F) (rate : F) :
  test_cost ir or e rate
  = if int_fits (inputTokens e) && int_fits (outputTokens e)
       && int_fits (cacheCreationTokens e + cacheReadTokens e)
    then Ok (of_int (inputTokens e) * ir + of_int (outputTokens e) * or
             + of_int (cacheCreationTokens e + cacheReadTokens e) * rate)%py
    else Raise OverflowError.
Proof.
  unfold test_cost, total_cache_tokens, float_of.
  destruct (int_fits (inputTokens e)), (int_fits (outputTokens e)),
    (int_fits (cacheCreationTokens e + cacheReadTokens e)); reflexivity.
Qed.

Lemma cache_cost_cases (ir or : F) (e : entry F) :
  cache_cost ir or e
  = if int_fits (inputTokens e) && int_fits (outputTokens e)
    then Ok (totalCost e
             - (of_int (inputTokens e) * ir + of_int (outputTokens e) * or))%py
    else Raise OverflowError.
Proof.
  unfold cache_cost, non_cache_cost, float_of.
  destruct (int_fits (inputTokens e)), (int_fits (outputTokens e)); reflexivity.
Qed.

End Conversions.

(** ** The forward calculation *)

(** C1, as amended.  The forward calculation of [reverse_engineer_pricing.py]
    gives the sum of the four products of a token count and its rate,
    taken from left to right, where the four counts are within the range
    of a float, and raises [OverflowError] where one of them is not, in
    binary64 as in any arithmetic.  [test_cost] of
    [find_exact_cache_rate.py] prices the two cache counts together: it
    gives the sum of three products where the counts of input and output
    tokens and the number of cache tokens are in range, and raises
    [OverflowError] where one is not.  Over the rationals, where every
    count fits, both always give their sum, and the sum of [test_cost] is
    the sum of the forward calculation with both cache categories at that
    rate.  With one million input tokens at 3e-06, half a million output
    tokens at 1.5e-05 and no cache tokens the result of both is 10.5: the
    binary64 value, for any finite non-negative cache rates, and the
    rational 21/2. *)
Theorem forward_cost_sum_of_products :
  (forall (F : Type) (N : Number F) (e : entry F) (p : PricingRate F),
      forward_cost e p
      = if tokens_fit e
        then Ok (of_int (inputTokens e) * inputRate p
                 + of_int (outputTokens e) * outputRate p
                 + of_int (cacheCreationTokens e) * cacheCreationRate p
                 + of_int (cacheReadTokens e) * cacheReadRate p)%py
        else Raise OverflowError)
  /\ (forall (F : Type) (N : Number F) (ir or : F) (e : entry F) (rate : F),
      test_cost ir or e rate
      = if int_fits (inputTokens e) && int_fits (outputTokens e)
           && int_fits (cacheCreationTokens e + cacheReadTokens e)
        then Ok (of_int (inputTokens e) * ir + of_int (outputTokens e) * or
                 + of_int (cacheCreationTokens e + cacheReadTokens e) * rate)%py
        else Raise OverflowError)
  /\ (forall (e : entry Q) (ir or r : Q),
      exists v w : Q,
        forward_cost e {| inputRate := ir; outputRate := or;
                          cacheCreationRate := r; cacheReadRate := r |} = Ok v
        /\ test_cost ir or e r = Ok w
        /\ (v == inject_Z (inputTokens e) * ir + inject_Z (outputTokens e) * or
                 + inject_Z (cacheCreationTokens e) * r
                 + inject_Z (cacheReadTokens e) * r)%Q
        /\ (w == v)%Q)
  /\ (forall rc rr tc : float,
      finite_nonneg rc = true -> finite_nonneg rr = true ->
      let e := {| inputTokens := 1000000; outputTokens := 500000;
                  cacheCreationTokens := 0; cacheReadTokens := 0;
                  totalCost := tc |} in
      forward_cost e
        {| inputRate := 3e-06%float; outputRate := 1.5e-05%float;
           cacheCreationRate := rc; cacheReadRate := rr |} = Ok 10.5%float
      /\ test_cost 3e-06%float 1.5e-05%float e rc = Ok 10.5%float)
  /\ (forall rc rr tc : Q,
      exists v : Q,
        forward_cost
          {| inputTokens := 1000000; outputTokens := 500000;
             cacheCreationTokens := 0; cacheReadTokens := 0; totalCost := tc |}
          {| inputRate := (3 # 1000000)%Q; outputRate := (15 # 1000000)%Q;
             cacheCreationRate := rc; cacheReadRate := rr |} = Ok v
        /\ (v == 21 # 2)%Q).
Proof.
  split; [| split; [| split; [| split]]].
  - intros F N e p. apply forward_cost_cases.
  - intros F N ir or e rate. apply test_cost_cases.
  - intros e ir or r. do 2 eexists.
    split; [reflexivity | split; [reflexivity | split]].
    + reflexivity.
    + cbn [fadd fmul of_int exact inputRate outputRate cacheCreationRate
             cacheReadRate]. unfold total_cache_tokens.
      rewrite inject_Z_plus. ring.
  - intros rc rr tc Hrc Hrr e.
    destruct (zero_tokens_cost rc Hrc) as [s1 H1].
    destruct (zero_tokens_cost rr Hrr) as [s2 H2].
    assert (H105 : Prim2SF 10.5%float = S754_finite false 5910974510923776 (-49))
      by (vm_compute; reflexivity).
    assert (Hio : (float_of_int 1000000 * 3e-06 + float_of_int 500000 * 1.5e-05)%float
                  = 10.5%float) by (vm_compute; reflexivity).
    split.
    + rewrite forward_cost_cases.
      replace (tokens_fit e) with true by (vm_compute; reflexivity).
      cbn [e inputTokens outputTokens cacheCreationTokens
        cacheReadTokens inputRate outputRate cacheCreationRate cacheReadRate
        fadd fmul of_int binary64].
      f_equal. rewrite Hio.
      rewrite (add_signed_zero _ _ _ _ _ _ H105 H1).
      apply (add_signed_zero _ _ _ _ _ _ H105 H2).
    + rewrite test_cost_cases.
      replace (int_fits (inputTokens e) && int_fits (outputTokens e)
               && int_fits (cacheCreationTokens e + cacheReadTokens e))
        with true by (vm_compute; reflexivity).
      cbn [e inputTokens outputTokens cacheCreationTokens cacheReadTokens
        fadd fmul of_int binary64 Z.add].
      f_equal. rewrite Hio.
      apply (add_signed_zero _ _ _ _ _ _ H105 H1).
  - intros rc rr tc. eexists. split; [reflexivity |]. cbn. field.
Qed.

Lemma forward_cost_sum_of_products_witness :
  forward_cost
    {| inputTokens := 1000000; outputTokens := 500000;
       cacheCreationTokens := 0; cacheReadTokens := 0; totalCost := 10.5%float |}
    {| inputRate := 3e-06%float; outputRate := 1.5e-05%float;
       cacheCreationRate := cache_rate; cacheReadRate := cache_rate2 |}
  = Ok 10.5%float
  /\ test_cost 3e-06%float 1.5e-05%float
       {| inputTokens := 1000000; outputTokens := 500000;
          cacheCreationTokens := 0; cacheReadTokens := 0; totalCost := 10.5%float |}
       cache_rate
     = Ok 10.5%float.
Proof.
  apply (proj1 (proj2 (proj2 (proj2 forward_cost_sum_of_products)))); reflexivity.
Defined.

(** In binary64: with a count of input tokens of 401 digits [cost1] raises
    [OverflowError] and returns no sum; and with one cache-creation token
    and nine cache-read tokens at [cache_rate] the four-term sum of
    [cost1] is 2.4899999999999995e-05 where the three-term sum of
    [test_cost] is 2.49e-05. *)
Lemma forward_cost_raises_and_differs_binary64 :
  let big := {| inputTokens := 10 ^ 400; outputTokens := 0;
                cacheCreationTokens := 0; cacheReadTokens := 0;
                totalCost := 0%float |} in
  let e := {| inputTokens := 0; outputTokens := 0;
              cacheCreationTokens := 1; cacheReadTokens := 9;
              totalCost := 0%float |} in
  0 <= inputTokens big
  /\ finite_nonneg sonnet_input = true
  /\ finite_nonneg sonnet_output = true
  /\ finite_nonneg cache_rate = true
  /\ cost1 big = Raise OverflowError
  /\ (forall v : float, cost1 big <> Ok v)
  /\ cost1 e = Ok 2.4899999999999995e-05%float
  /\ test_cost input_rate output_rate e cache_rate = Ok 2.49e-05%float
  /\ cost1 e <> test_cost input_rate output_rate e cache_rate.
Proof.
  cbv zeta.
  split; [vm_compute; discriminate |].
  split; [reflexivity |]. split; [reflexivity |]. split; [reflexivity |].
  assert (Hbig : cost1 {| inputTokens := 10 ^ 400; outputTokens := 0;
                          cacheCreationTokens := 0; cacheReadTokens := 0;
                          totalCost := 0%float |} = Raise OverflowError)
    by (vm_compute; reflexivity).
  split; [exact Hbig |].
  split; [intros v Hv; rewrite Hbig in Hv; discriminate Hv |].
  split; [vm_compute; reflexivity |]. split; [vm_compute; reflexivity |].
  results_differ.
Qed.

(** ** The rate inversion *)

Lemma inject_Z_nonzero (n : Z) : n <> 0 -> ~ (inject_Z n == 0)%Q.
Proof.
  intros Hn H0. apply Hn. unfold Qeq in H0. cbn in H0. lia.
Qed.

(** Over the rationals the inversion divides wherever there are cache
    tokens. *)
Lemma effective_cache_rate_exact (ir or : Q) (e : entry Q) :
  cacheCreationTokens e + cacheReadTokens e <> 0 ->
  effective_cache_rate ir or e
  = Ok ((totalCost e - (inject_Z (inputTokens e) * ir + inject_Z (outputTokens e) * or))
        / inject_Z (cacheCreationTokens e + cacheReadTokens e))%Q.
Proof.
  intros Hnz. unfold effective_cache_rate. rewrite cache_cost_cases.
  cbn [int_fits exact andb bind]. rewrite truediv_cases.
  cbn [int_fits exact]. unfold total_cache_tokens.
  destruct (Z.eqb_spec (cacheCreationTokens e + cacheReadTokens e) 0);
    [contradiction | reflexivity].
Qed.

(** C2, as amended.  Over the rationals the inversion undoes the forward
    calculation: from the total that the forward calculation gives with
    both cache categories priced at [r], an entry with cache tokens gets
    back a rate equal to [r]. *)
Theorem inversion_recovers_rate_exact (e : entry Q) (ir or r : Q) :
  0 < cacheCreationTokens e + cacheReadTokens e ->
  exists t v : Q,
    forward_cost e {| inputRate := ir; outputRate := or;
                      cacheCreationRate := r; cacheReadRate := r |} = Ok t
    /\ effective_cache_rate ir or (with_total e t) = Ok v
    /\ (v == r)%Q.
Proof.
  intros Hpos. eexists. eexists.
  split; [reflexivity |].
  split; [apply effective_cache_rate_exact;
          cbn [with_total cacheCreationTokens cacheReadTokens]; lia |].
  cbn [with_total inputTokens outputTokens cacheCreationTokens cacheReadTokens
         totalCost fadd fmul of_int exact inputRate outputRate cacheCreationRate
         cacheReadRate].
  rewrite inject_Z_plus.
  assert (Hnz : ~ (inject_Z (cacheCreationTokens e) + inject_Z (cacheReadTokens e) == 0)%Q).
  { rewrite <- inject_Z_plus. apply inject_Z_nonzero. lia. }
  field. exact Hnz.
Qed.

Lemma inversion_recovers_rate_exact_witness :
  exists t v : Q,
    forward_cost
      {| inputTokens := 1000000; outputTokens := 500000;
         cacheCreationTokens := 100000; cacheReadTokens := 0; totalCost := 0%Q |}
      {| inputRate := (3 # 1000000)%Q; outputRate := (15 # 1000000)%Q;
         cacheCreationRate := (249 # 100000000)%Q;
         cacheReadRate := (249 # 100000000)%Q |} = Ok t
    /\ effective_cache_rate (3 # 1000000)%Q (15 # 1000000)%Q
         (with_total
            {| inputTokens := 1000000; outputTokens := 500000;
               cacheCreationTokens := 100000; cacheReadTokens := 0;
               totalCost := 0%Q |} t)
       = Ok v
    /\ (v == 249 # 100000000)%Q.
Proof.
  apply (inversion_recovers_rate_exact
           {| inputTokens := 1000000; outputTokens := 500000;
              cacheCreationTokens := 100000; cacheReadTokens := 0; totalCost := 0%Q |}).
  reflexivity.
Defined.

(** In binary64, with the constants of the scripts: one million input
    tokens, half a million output tokens and a hundred thousand cache
    tokens priced at [cache_rate] cost 10.749, and the inversion gives
    2.4900000000000054e-06 for it, which is not [cache_rate]. *)
Lemma inversion_not_exact_binary64 :
  let e := {| inputTokens := 1000000; outputTokens := 500000;
              cacheCreationTokens := 100000; cacheReadTokens := 0;
              totalCost := 0%float |} in
  0 < cacheCreationTokens e + cacheReadTokens e
  /\ finite_nonneg input_rate = true
  /\ finite_nonneg output_rate = true
  /\ finite_nonneg cache_rate = true
  /\ cost1 e = Ok 10.749%float
  /\ effective_cache_rate input_rate output_rate (with_total e 10.749%float)
     = Ok 2.4900000000000054e-06%float
  /\ (2.4900000000000054e-06 =? cache_rate)%float = false
  /\ effective_cache_rate input_rate output_rate (with_total e 10.749%float)
     <> Ok cache_rate.
Proof.
  cbv zeta. repeat split; try (vm_compute; reflexivity).
  results_differ.
Qed.

Section Inversion.
Context {F : Type} {N : Number F}.

Lemma effective_cache_rate_cases (ir or : F) (e : entry F) :
  effective_cache_rate ir or e
  = if int_fits (inputTokens e) && int_fits (outputTokens e)
    then if int_fits (cacheCreationTokens e + cacheReadTokens e)
         then if cacheCreationTokens e + cacheReadTokens e =? 0
              then Raise ZeroDivisionError
              else Ok (fdiv (totalCost e
                             - (of_int (inputTokens e) * ir
                                + of_int (outputTokens e) * or))%py
                            (of_int (cacheCreationTokens e + cacheReadTokens e)))
         else Raise OverflowError
    else Raise OverflowError.
Proof.
  unfold effective_cache_rate. rewrite cache_cost_cases.
  destruct (int_fits (inputTokens e) && int_fits (outputTokens e)); [| reflexivity].
  cbn [bind]. rewrite truediv_cases. reflexivity.
Qed.

Lemma find_exact_cache_rate_cases (ir or : F) (e : entry F) :
  find_exact_cache_rate ir or e
  = if int_fits (inputTokens e) && int_fits (outputTokens e)
    then if 0 <? cacheCreationTokens e + cacheReadTokens e
         then if int_fits (cacheCreationTokens e + cacheReadTokens e)
              then
                let rate :=
                  fdiv (totalCost e
                        - (of_int (inputTokens e) * ir
                           + of_int (outputTokens e) * or))%py
                       (of_int (cacheCreationTokens e + cacheReadTokens e)) in
                Ok (Some (rate,
                          (of_int (inputTokens e) * ir + of_int (outputTokens e) * or
                           + of_int (cacheCreationTokens e + cacheReadTokens e) * rate)%py))
              else Raise OverflowError
         else Ok None
    else Raise OverflowError.
Proof.
  unfold find_exact_cache_rate. rewrite cache_cost_cases.
  destruct (int_fits (inputTokens e)) eqn:Hi, (int_fits (outputTokens e)) eqn:Ho;
    try reflexivity.
  cbn [andb bind]. unfold total_cache_tokens.
  destruct (Z.ltb_spec 0 (cacheCreationTokens e + cacheReadTokens e)) as [Hpos | Hle];
    [| reflexivity].
  rewrite truediv_cases.
  destruct (int_fits (cacheCreationTokens e + cacheReadTokens e)) eqn:Ht;
    [| reflexivity].
  destruct (Z.eqb_spec (cacheCreationTokens e + cacheReadTokens e) 0); [lia |].
  cbn [bind]. unfold test_cost, total_cache_tokens, float_of.
  rewrite Hi, Ho, Ht. reflexivity.
Qed.

End Inversion.

(** C3, as amended.  The inversion converts the counts of input and output
    tokens and the number of cache tokens, and raises [OverflowError]
    where one of them is outside the range of a float.  With the three in
    range it raises [ZeroDivisionError] exactly when the entry has no
    cache tokens in total; on an entry that passes the test of line 31 it
    is defined, and is the reported total minus the sum of the input and
    output costs, divided by the number of cache tokens, which is what
    the script reports, with the cost recomputed from it.  The script
    computes the input and output costs before the test, so that an entry
    without cache tokens gives no report where the two counts are in range
    and [OverflowError] where they are not.  Over the rationals the rate
    is the total minus the input cost minus the output cost, divided by
    the number of cache tokens. *)
Theorem effective_cache_rate_defined_and_value :
  (forall (F : Type) (N : Number F) (ir or : F) (e : entry F),
      let tokens := cacheCreationTokens e + cacheReadTokens e in
      let in_range := int_fits (inputTokens e) && int_fits (outputTokens e) in
      let rate :=
        fdiv (totalCost e
              - (of_int (inputTokens e) * ir + of_int (outputTokens e) * or))%py
             (of_int tokens) in
      (effective_cache_rate ir or e = Raise ZeroDivisionError
       <-> in_range = true /\ int_fits tokens = true /\ tokens = 0)
      /\ (effective_cache_rate ir or e = Raise OverflowError
          <-> in_range = false \/ int_fits tokens = false)
      /\ (in_range = true -> int_fits tokens = true -> 0 < tokens ->
          effective_cache_rate ir or e = Ok rate
          /\ find_exact_cache_rate ir or e
             = Ok (Some (rate,
                         (of_int (inputTokens e) * ir + of_int (outputTokens e) * or
                          + of_int tokens * rate)%py)))
      /\ (in_range = true -> tokens <= 0 -> find_exact_cache_rate ir or e = Ok None)
      /\ (in_range = false \/ (0 < tokens /\ int_fits tokens = false) ->
          find_exact_cache_rate ir or e = Raise OverflowError))
  /\ (forall (ir or : Q) (e : entry Q),
      0 < cacheCreationTokens e + cacheReadTokens e ->
      exists v : Q,
        effective_cache_rate ir or e = Ok v
        /\ spec_effective_cache_rate ir or e
           = Ok ((totalCost e - inject_Z (inputTokens e) * ir
                  - inject_Z (outputTokens e) * or)
                 / inject_Z (cacheCreationTokens e + cacheReadTokens e))%Q
        /\ (v == (totalCost e - inject_Z (inputTokens e) * ir
                  - inject_Z (outputTokens e) * or)
                 / inject_Z (cacheCreationTokens e + cacheReadTokens e))%Q).
Proof.
  split.
  - intros F N ir or e tokens in_range rate.
    rewrite effective_cache_rate_cases, find_exact_cache_rate_cases.
    fold tokens in_range. cbv zeta. fold rate.
    destruct in_range.
    + destruct (int_fits tokens).
      * destruct (Z.eqb_spec tokens 0) as [H0 | H0];
          destruct (Z.ltb_spec 0 tokens) as [Hpos | Hle]; try lia.
        -- split; [tauto |]. split; [split; [discriminate | intros [? | ?]; discriminate] |].
           split; [lia |]. split; [reflexivity |].
           intros [? | [? _]]; [discriminate | lia].
        -- split; [split; [discriminate | tauto] |].
           split; [split; [discriminate | intros [? | ?]; discriminate] |].
           split; [intros _ _ _; split; reflexivity |]. split; [lia |].
           intros [? | [_ ?]]; discriminate.
        -- split; [split; [discriminate | tauto] |].
           split; [split; [discriminate | intros [? | ?]; discriminate] |].
           split; [lia |]. split; [reflexivity |].
           intros [? | [? _]]; [discriminate | lia].
      * split; [split; [discriminate | intros (_ & ? & _); discriminate] |].
        split; [split; [tauto | reflexivity] |].
        split; [discriminate |].
        destruct (Z.ltb_spec 0 tokens) as [Hpos | Hle].
        -- split; [lia | reflexivity].
        -- split; [reflexivity |]. intros [? | [? _]]; [discriminate | lia].
    + split; [split; [discriminate | intros (? & _); discriminate] |].
      split; [split; [tauto | reflexivity] |].
      split; [discriminate |]. split; [discriminate | reflexivity].
  - intros ir or e Hpos.
    rewrite effective_cache_rate_exact by lia.
    eexists; split; [reflexivity | split].
    + unfold spec_effective_cache_rate. cbn [float_of int_fits exact bind of_int].
      rewrite truediv_cases. cbn [int_fits exact]. unfold total_cache_tokens.
      destruct (Z.eqb_spec (cacheCreationTokens e + cacheReadTokens e) 0);
        [lia | reflexivity].
    + field. apply inject_Z_nonzero. lia.
Qed.

Lemma effective_cache_rate_defined_and_value_witness :
  let e := {| inputTokens := 1000000; outputTokens := 500000;
              cacheCreationTokens := 100000; cacheReadTokens := 0;
              totalCost := 10.5%float |} in
  effective_cache_rate input_rate output_rate e = Ok 0%float
  /\ find_exact_cache_rate input_rate output_rate e = Ok (Some (0%float, 10.5%float)).
Proof.
  exact (proj1 (proj2 (proj2 (proj1 effective_cache_rate_defined_and_value
                         float binary64 input_rate output_rate
                         {| inputTokens := 1000000; outputTokens := 500000;
                            cacheCreationTokens := 100000; cacheReadTokens := 0;
                            totalCost := 10.5%float |})))
               eq_refl eq_refl eq_refl).
Defined.

(** In binary64: with a count of input tokens of 401 digits the inversion
    raises [OverflowError], with cache tokens, where no rate comes back,
    and without, where the exception is not [ZeroDivisionError] and the
    script raises before its test.  And the two ways of subtracting
    differ: for one input token, one output token and one cache token
    against a reported total of 10.5, the script computes 10.499982, and
    subtracting the two costs one after the other gives
    10.499982000000001. *)
Lemma inversion_raises_and_grouping_binary64 :
  let big := {| inputTokens := 10 ^ 400; outputTokens := 0;
                cacheCreationTokens := 1; cacheReadTokens := 0;
                totalCost := 10.5%float |} in
  let bare := {| inputTokens := 10 ^ 400; outputTokens := 0;
                 cacheCreationTokens := 0; cacheReadTokens := 0;
                 totalCost := 10.5%float |} in
  let e := {| inputTokens := 1; outputTokens := 1;
              cacheCreationTokens := 1; cacheReadTokens := 0;
              totalCost := 10.5%float |} in
  (0 < cacheCreationTokens big + cacheReadTokens big
   /\ effective_cache_rate input_rate output_rate big = Raise OverflowError
   /\ find_exact_cache_rate input_rate output_rate big = Raise OverflowError)
  /\ (cacheCreationTokens bare + cacheReadTokens bare = 0
      /\ effective_cache_rate input_rate output_rate bare = Raise OverflowError
      /\ effective_cache_rate input_rate output_rate bare <> Raise ZeroDivisionError
      /\ find_exact_cache_rate input_rate output_rate bare = Raise OverflowError)
  /\ (0 < cacheCreationTokens e + cacheReadTokens e
      /\ effective_cache_rate input_rate output_rate e = Ok 10.499982%float
      /\ spec_effective_cache_rate input_rate output_rate e
         = Ok 10.499982000000001%float
      /\ effective_cache_rate input_rate output_rate e
         <> spec_effective_cache_rate input_rate output_rate e).
Proof.
  cbv zeta. split; [| split].
  - split; [reflexivity |]. split; vm_compute; reflexivity.
  - split; [reflexivity |]. split; [vm_compute; reflexivity |].
    split; [| vm_compute; reflexivity].
    intros Heq.
    assert (Hover : effective_cache_rate input_rate output_rate
                      {| inputTokens := 10 ^ 400; outputTokens := 0;
                         cacheCreationTokens := 0; cacheReadTokens := 0;
                         totalCost := 10.5%float |} = Raise OverflowError)
      by (vm_compute; reflexivity).
    rewrite Hover in Heq. discriminate Heq.
  - split; [reflexivity |]. split; [vm_compute; reflexivity |].
    split; [vm_compute; reflexivity |]. results_differ.
Qed.

(** ** The comparison *)

Section CompareFacts.
Context {F : Type} {N : Number F}.
Import Compare.





End CompareFacts.

Section CompareTheorems.
Context {F : Type} {N : Number F}.
Import Compare.






End CompareTheorems.




(** ** The log scanner *)

Section ScanFacts.
Context {F : Type} {N : Number F}.
Variable accepts : Scan.printed F -> bool.
Variable date_prefix : string.
Import Scan.

Lemma prefix_of_empty (p : string) : p <> EmptyString -> prefix p "" = false.
Proof.
  destruct p; [congruence | reflexivity].
Qed.

Lemma scan_lines_app_malformed (before after : list (line F)) :
  forall st : tally F,
    scan_lines accepts date_prefix st (before ++ Malformed :: after)
    = scan_lines accepts date_prefix st before.
Proof.
  induction before as [| l before IH]; intros st; cbn.
  - reflexivity.
  - destruct l as [| | data]; auto.
    destruct (scan_record accepts date_prefix st data) as [st' [e |]]; auto.
Qed.

Lemma scan_from_app (fs1 fs2 : list (file F)) (st : tally F) :
  scan_from accepts date_prefix st (fs1 ++ fs2)
  = scan_from accepts date_prefix (scan_from accepts date_prefix st fs1) fs2.
Proof.
  unfold scan_from. apply fold_left_app.
Qed.

End ScanFacts.

(** C5, as amended.  A line on which [json.loads] raises ends the scan of
    its file and not the scan: the lines before it are tallied, the lines
    after it are not read, and the scan goes on with the next file from the
    tallies reached.  A file of one record followed by one such line gives
    the tallies of the record alone, and a file that cannot be opened
    changes nothing.  A file holding bytes that are no text ends in the
    same way where the read comes to them: the lines handed out before are
    tallied, the others are not, whichever side of the bytes they stand
    on, and the scan goes on with the next file. *)
Theorem malformed_line_ends_its_file :
  forall (F : Type) (N : Number F) (accepts : Scan.printed F -> bool)
         (date_prefix : string)
         (fs1 fs2 : list (Scan.file F)) (before after : list (Scan.line F)),
    let scan := Scan.scan accepts date_prefix in
    scan (fs1 ++ Scan.Lines (before ++ Scan.Malformed :: after) :: fs2)
    = Scan.scan_from accepts date_prefix
        (Scan.scan_lines accepts date_prefix (scan fs1) before) fs2
    /\ scan (fs1 ++ Scan.Lines (before ++ Scan.Malformed :: after) :: fs2)
       = scan (fs1 ++ Scan.Lines before :: fs2)
    /\ (forall data : json F,
          scan [Scan.Lines [Scan.Parsed data; Scan.Malformed]]
          = scan [Scan.Lines [Scan.Parsed data]])
    /\ scan (fs1 ++ Scan.Unreadable :: fs2) = scan (fs1 ++ fs2)
    /\ (forall lost : list (Scan.line F),
          scan (fs1 ++ Scan.DecodeFails before lost :: fs2)
          = Scan.scan_from accepts date_prefix
              (Scan.scan_lines accepts date_prefix (scan fs1) before) fs2
          /\ scan (fs1 ++ Scan.DecodeFails before lost :: fs2)
             = scan (fs1 ++ Scan.Lines before :: fs2)).
Proof.
  intros F N accepts date_prefix fs1 fs2 before after scan.
  unfold scan, Scan.scan. rewrite !scan_from_app.
  split; [| split; [| split; [| split]]].
  - cbn. now rewrite scan_lines_app_malformed.
  - cbn. now rewrite scan_lines_app_malformed.
  - intros data. cbn.
    destruct (Scan.scan_record accepts date_prefix _ data) as [st' [e |]]; reflexivity.
  - reflexivity.
  - intros lost. rewrite !scan_from_app. split; reflexivity.
Qed.

(** With the line that does not parse first, the record after it is not
    tallied; and with bytes that are no text after a record, in the block
    that the first read takes, the record before them is not tallied
    either. *)
Lemma malformed_line_hides_later_record :
  let valid := Scan.Parsed (Samples.record_with_cost 0.25%float) in
  let check := Scan.check_costUSD_field Scan.any_line in
  check [Scan.Lines [Scan.Malformed; valid]]
  = {| Scan.has_cost := 0; Scan.no_cost := 0;
       Scan.total_cost_from_field := 0%float |}
  /\ check [Scan.Lines [valid]]
     = {| Scan.has_cost := 1; Scan.no_cost := 0;
          Scan.total_cost_from_field := 0.25%float |}
  /\ check [Scan.Lines [Scan.Malformed; valid]] <> check [Scan.Lines [valid]]
  /\ check [Scan.DecodeFails [] [valid]]
     = {| Scan.has_cost := 0; Scan.no_cost := 0;
          Scan.total_cost_from_field := 0%float |}
  /\ check [Scan.DecodeFails [] [valid]] <> check [Scan.Lines [valid]].
Proof.
  cbv zeta.
  split; [vm_compute; reflexivity |]. split; [vm_compute; reflexivity |].
  split; [intros Heq; apply (f_equal Scan.has_cost) in Heq; vm_compute in Heq;
          discriminate Heq |].
  split; [vm_compute; reflexivity |].
  intros Heq. apply (f_equal Scan.has_cost) in Heq. vm_compute in Heq.
  discriminate Heq.
Qed.

(** C10.  For a date prefix that is not empty, a record whose object has
    no [timestamp] reads as having the empty timestamp, which the prefix
    does not start: the record leaves the three tallies as they are, raises
    nothing, and the scan goes on with the next line. *)
Theorem record_without_timestamp_is_not_tallied :
  forall (F : Type) (N : Number F) (accepts : Scan.printed F -> bool)
         (date_prefix : string) (d : dict F) (st : Scan.tally F),
    date_prefix <> EmptyString ->
    contains d "timestamp" = false ->
    get d "timestamp" (JStr "") = JStr ""
    /\ Scan.scan_record accepts date_prefix st (JObj d) = (st, None)
    /\ (forall ls : list (Scan.line F),
          Scan.scan_lines accepts date_prefix st (Scan.Parsed (JObj d) :: ls)
          = Scan.scan_lines accepts date_prefix st ls).
Proof.
  intros F N accepts date_prefix d st Hprefix Hno.
  assert (Hget : get d "timestamp" (JStr "") = JStr "").
  { unfold contains in Hno. unfold get.
    destruct (assoc "timestamp" d); [discriminate | reflexivity]. }
  assert (Hrec : Scan.scan_record accepts date_prefix st (JObj d) = (st, None)).
  { unfold Scan.scan_record. rewrite Hget, prefix_of_empty by assumption.
    reflexivity. }
  repeat split; try assumption.
  intros ls. cbn [Scan.scan_lines]. rewrite Hrec. reflexivity.
Qed.

Lemma record_without_timestamp_is_not_tallied_witness :
  Scan.scan_record Scan.any_line "2025-06-09"
    {| Scan.has_cost := 2; Scan.no_cost := 1;
       Scan.total_cost_from_field := 0.5%float |}
    (JObj Samples.record_without_timestamp)
  = ({| Scan.has_cost := 2; Scan.no_cost := 1;
        Scan.total_cost_from_field := 0.5%float |}, None).
Proof.
  apply (record_without_timestamp_is_not_tallied float binary64 Scan.any_line
           "2025-06-09" Samples.record_without_timestamp).
  - discriminate.
  - reflexivity.
Defined.

Example index_model : index 0 "model" "my model" = Some 3%nat /\ index 0 "model" "modal" = None.
Proof. split; reflexivity. Qed.

Section ScanUsageRecords.
Context {F : Type} {N : Number F}.
Variable accepts : Scan.printed F -> bool.
Variable date_prefix : string.
Import Scan.

Lemma show_model_usage_record (d : dict F) :
  usage_record accepts (JObj d) = true -> show_model accepts d = Ok tt.
Proof.
  unfold usage_record, show_model, print. rewrite !andb_true_iff. intros [_ Hmsg].
  destruct (assoc "message" d) as [[| | | | | | message] |];
    try discriminate; try reflexivity.
  destruct (assoc "model" message); [now rewrite Hmsg | reflexivity].
Qed.

Lemma tally_unchanged (st : tally F) :
  {| has_cost := has_cost st + 0; no_cost := no_cost st + 0;
     total_cost_from_field := total_cost_from_field st |} = st.
Proof.
  destruct st; cbn. now rewrite !Z.add_0_r.
Qed.

(** Line 24 on a number that a float holds. *)
Lemma add_cost_addable (total : F) (cost : json F) :
  addable cost = true ->
  exists c, as_num cost = Ok c /\ add_cost total cost = Ok (fadd total (value_of c)).
Proof.
  unfold add_cost, addable.
  destruct cost as [| b | n | x | | |]; try discriminate; intros Hfit;
    cbn [as_num bind to_float]; unfold float_of; rewrite ?Hfit;
    eexists; split; reflexivity.
Qed.

(** A usage record is tallied without an exception. *)
Lemma scan_record_usage_record (st : tally F) (data : json F) :
  usage_record accepts data = true ->
  scan_record accepts date_prefix st data = (tally_record date_prefix st data, None).
Proof.
  intros Hu. destruct data as [| | | | | | d]; try discriminate.
  pose proof (show_model_usage_record d Hu) as Hshow.
  unfold usage_record in Hu. rewrite !andb_true_iff in Hu.
  destruct Hu as [[Hts Hcost] _].
  unfold scan_record, tally_record, with_cost, without_cost, of_the_day, cost_of,
    contains.
  destruct (get d "timestamp" (JStr "")) as [| | | | ts | |]; try discriminate.
  destruct (prefix date_prefix ts); [| now rewrite tally_unchanged].
  unfold get. destruct (assoc "costUSD" d) as [cost |].
  - rewrite andb_true_iff in Hcost. destruct Hcost as [Hadd Hacc].
    cbn [has_cost no_cost total_cost_from_field].
    destruct (add_cost_addable (total_cost_from_field st) cost Hadd) as (c & -> & ->).
    cbn [has_cost]. unfold print. rewrite Hacc, Hshow. cbn [bind raised].
    rewrite Z.add_0_r. destruct (has_cost st + 1 <=? 3); reflexivity.
  - cbn [has_cost no_cost total_cost_from_field].
    unfold print. rewrite Hcost, Hshow. cbn [bind raised].
    rewrite Z.add_0_r. destruct (no_cost st + 1 <=? 3); reflexivity.
Qed.

Lemma scan_lines_usage (ls : list (line F)) :
  forallb (usage_line accepts) ls = true ->
  forall st : tally F,
    scan_lines accepts date_prefix st ls
    = fold_left (tally_record date_prefix) (flat_map records_of_line ls) st.
Proof.
  induction ls as [| l ls IH]; intros Hu st; [reflexivity |].
  cbn in Hu. rewrite andb_true_iff in Hu. destruct Hu as [Hl Hls].
  destruct l as [| | data]; cbn in *.
  - now apply IH.
  - discriminate.
  - rewrite (scan_record_usage_record st data Hl). now apply IH.
Qed.

Lemma scan_from_usage (files : list (file F)) :
  forallb (usage_file accepts) files = true ->
  forall st : tally F,
    scan_from accepts date_prefix st files
    = fold_left (tally_record date_prefix) (records files) st.
Proof.
  induction files as [| f files IH]; intros Hu st; [reflexivity |].
  cbn in Hu. rewrite andb_true_iff in Hu. destruct Hu as [Hf Hfs].
  unfold scan_from, records in *. cbn [fold_left flat_map].
  rewrite fold_left_app, IH by assumption.
  f_equal. destruct f as [| ls | handed lost]; [reflexivity | | discriminate].
  now apply scan_lines_usage.
Qed.

(** The counts after a list of usage records. *)
Lemma fold_tally_counts (rs : list (json F)) :
  forall st : tally F,
    has_cost (fold_left (tally_record date_prefix) rs st)
    = has_cost st + fold_right Z.add 0 (map (with_cost date_prefix) rs)
    /\ no_cost (fold_left (tally_record date_prefix) rs st)
       = no_cost st + fold_right Z.add 0 (map (without_cost date_prefix) rs).
Proof.
  induction rs as [| r rs IH]; intros st; cbn [fold_left map fold_right].
  - split; lia.
  - destruct (IH (tally_record date_prefix st r)) as [-> ->].
    cbn [tally_record has_cost no_cost]. split; lia.
Qed.

End ScanUsageRecords.

Lemma Zsum_permutation (A : Type) (f : A -> Z) (l l' : list A) :
  Permutation l l' ->
  fold_right Z.add 0 (map f l) = fold_right Z.add 0 (map f l').
Proof.
  induction 1; cbn; lia.
Qed.

Section ExactCostSum.
Variable date_prefix : string.
Import Scan.
Local Open Scope Q_scope.

Lemma fold_tally_cost_exact (rs : list (json Q)) :
  forall st : tally Q,
    total_cost_from_field (fold_left (tally_record date_prefix) rs st)
    == total_cost_from_field st + Qsum (map (cost_added date_prefix) rs).
Proof.
  induction rs as [| r rs IH]; intros st; cbn [fold_left map Qsum fold_right].
  - ring.
  - rewrite IH. unfold Qsum. cbn [tally_record total_cost_from_field].
    unfold cost_added.
    destruct (of_the_day date_prefix r); [destruct (cost_of r) |]; cbn; ring.
Qed.

Lemma Qsum_permutation (A : Type) (f : A -> Q) (l l' : list A) :
  Permutation l l' -> Qsum (map f l) == Qsum (map f l').
Proof.
  unfold Qsum. induction 1; cbn.
  - reflexivity.
  - now rewrite IHPermutation.
  - ring.
  - now rewrite IHPermutation1.
Qed.

End ExactCostSum.

Lemma token_sums_permutation (F : Type) (date_prefix : string)
  (usage : json F -> Z * Z * Z * Z) (rs rs' : list (json F)) :
  Permutation rs rs' ->
  forall sums : Z * Z * Z * Z,
    fold_left (Scan.add_tokens date_prefix usage) rs sums
    = fold_left (Scan.add_tokens date_prefix usage) rs' sums.
Proof.
  induction 1 as [| x l l' Hp IH | x y l | l l' l'' Hp1 IH1 Hp2 IH2]; intros sums.
  - reflexivity.
  - cbn. apply IH.
  - cbn. f_equal. unfold Scan.add_tokens.
    destruct sums as [[[i o] cc] cr].
    destruct (Scan.of_the_day date_prefix x), (Scan.of_the_day date_prefix y);
      try reflexivity.
    destruct (usage x) as [[[xi xo] xcc] xcr], (usage y) as [[[yi yo] ycc] ycr].
    cbn. apply f_equal2; [apply f_equal2; [apply f_equal2 |] |]; lia.
  - now rewrite IH1.
Qed.

(** C6, as amended.  Take files of usage records: files read to their
    end, each line blank or a record whose [costUSD], where present, is a
    number within the range of a float, on an output stream that takes
    the lines showing the records.  Files whose records are the same up to
    order, within and across the files, give the same two counts; read
    over the rationals they give the same sum of [costUSD]; and the token
    sums of the same records in another order are the same. *)
Theorem tallies_invariant_under_permutation :
  (forall (F : Type) (N : Number F) (accepts : Scan.printed F -> bool)
          (date_prefix : string) (files files' : list (Scan.file F)),
      forallb (Scan.usage_file accepts) files = true ->
      forallb (Scan.usage_file accepts) files' = true ->
      Permutation (Scan.records files) (Scan.records files') ->
      Scan.has_cost (Scan.scan accepts date_prefix files)
      = Scan.has_cost (Scan.scan accepts date_prefix files')
      /\ Scan.no_cost (Scan.scan accepts date_prefix files)
         = Scan.no_cost (Scan.scan accepts date_prefix files'))
  /\ (forall (accepts : Scan.printed Q -> bool) (date_prefix : string)
             (files files' : list (Scan.file Q)),
      forallb (Scan.usage_file accepts) files = true ->
      forallb (Scan.usage_file accepts) files' = true ->
      Permutation (Scan.records files) (Scan.records files') ->
      (Scan.total_cost_from_field (Scan.scan accepts date_prefix files)
       == Scan.total_cost_from_field (Scan.scan accepts date_prefix files'))%Q)
  /\ (forall (F : Type) (date_prefix : string)
          (usage : json F -> Z * Z * Z * Z) (rs rs' : list (json F)),
      Permutation rs rs' ->
      Scan.token_sums date_prefix usage rs = Scan.token_sums date_prefix usage rs').
Proof.
  split; [| split].
  - intros F N accepts date_prefix files files' Hu Hu' Hperm.
    unfold Scan.scan. rewrite !(scan_from_usage accepts) by assumption.
    destruct (fold_tally_counts date_prefix (Scan.records files)
                {| Scan.has_cost := 0; Scan.no_cost := 0;
                   Scan.total_cost_from_field := of_int 0 |}) as [-> ->].
    destruct (fold_tally_counts date_prefix (Scan.records files')
                {| Scan.has_cost := 0; Scan.no_cost := 0;
                   Scan.total_cost_from_field := of_int 0 |}) as [-> ->].
    now rewrite (Zsum_permutation _ (Scan.with_cost date_prefix) _ _ Hperm),
                (Zsum_permutation _ (Scan.without_cost date_prefix) _ _ Hperm).
  - intros accepts date_prefix files files' Hu Hu' Hperm.
    unfold Scan.scan. rewrite !(scan_from_usage accepts) by assumption.
    rewrite !fold_tally_cost_exact.
    now rewrite (Qsum_permutation _ (Scan.cost_added date_prefix) _ _ Hperm).
  - intros F date_prefix usage rs rs' Hperm. unfold Scan.token_sums.
    now apply token_sums_permutation.
Qed.

Lemma tallies_invariant_under_permutation_witness :
  let a := Samples.record_with_cost 0.1%float in
  let b := Samples.record_with_cost 0.2%float in
  let check := Scan.check_costUSD_field Scan.any_line in
  Scan.has_cost (check [Scan.Lines [Scan.Parsed a; Scan.Blank; Scan.Parsed b]])
  = Scan.has_cost (check [Scan.Lines [Scan.Parsed b]; Scan.Unreadable;
                          Scan.Lines [Scan.Parsed a]])
  /\ Scan.no_cost (check [Scan.Lines [Scan.Parsed a; Scan.Blank; Scan.Parsed b]])
     = Scan.no_cost (check [Scan.Lines [Scan.Parsed b]; Scan.Unreadable;
                            Scan.Lines [Scan.Parsed a]]).
Proof.
  cbv zeta.
  apply (proj1 tallies_invariant_under_permutation float binary64 Scan.any_line
           "2025-06-09"%string).
  - reflexivity.
  - reflexivity.
  - apply perm_swap.
Defined.

(** In binary64 the sum of [costUSD] depends on the order: three records
    of the day with costs 0.1, 0.2 and 0.3 sum to 0.6000000000000001 in
    that order and to 0.6 in the opposite one. *)
Lemma cost_sum_depends_on_order_binary64 :
  let a := Scan.Parsed (Samples.record_with_cost 0.1%float) in
  let b := Scan.Parsed (Samples.record_with_cost 0.2%float) in
  let c := Scan.Parsed (Samples.record_with_cost 0.3%float) in
  let check := Scan.check_costUSD_field Scan.any_line in
  forallb (Scan.usage_file Scan.any_line) [Scan.Lines [a; b; c]] = true
  /\ forallb (Scan.usage_file Scan.any_line) [Scan.Lines [c; b; a]] = true
  /\ Permutation (Scan.records [Scan.Lines [a; b; c]])
                 (Scan.records [Scan.Lines [c; b; a]])
  /\ check [Scan.Lines [a; b; c]]
     = {| Scan.has_cost := 3; Scan.no_cost := 0;
          Scan.total_cost_from_field := 0.6000000000000001%float |}
  /\ check [Scan.Lines [c; b; a]]
     = {| Scan.has_cost := 3; Scan.no_cost := 0;
          Scan.total_cost_from_field := 0.6%float |}
  /\ (Scan.total_cost_from_field (check [Scan.Lines [a; b; c]])
      =? Scan.total_cost_from_field (check [Scan.Lines [c; b; a]]))%float
     = false
  /\ check [Scan.Lines [a; b; c]] <> check [Scan.Lines [c; b; a]].
Proof.
  cbv zeta.
  split; [reflexivity |]. split; [reflexivity |].
  split; [apply (Permutation_rev [_; _; _]) |].
  split; [vm_compute; reflexivity |]. split; [vm_compute; reflexivity |].
  split; [vm_compute; reflexivity |].
  intros Heq.
  apply (f_equal (fun t => Prim2SF (Scan.total_cost_from_field t))) in Heq.
  vm_compute in Heq. discriminate Heq.
Qed.

(** A [costUSD] that is an [int] of 401 digits is no usage record in the
    sense above: line 24 raises [OverflowError] on it after line 23 has
    counted it, and the rest of its file is not read, so that with such a
    record even the counts depend on the order. *)
Lemma huge_cost_makes_counts_depend_on_order :
  let big := Scan.Parsed (JObj Cases.huge_cost) in
  let half := Scan.Parsed (Samples.record_with_cost 0.5%float) in
  let check := Scan.check_costUSD_field Scan.any_line in
  Scan.usage_file Scan.any_line (Scan.Lines [big; half]) = false
  /\ Scan.scan_record Scan.any_line "2025-06-09"
       {| Scan.has_cost := 0; Scan.no_cost := 0;
          Scan.total_cost_from_field := 0%float |} (JObj Cases.huge_cost)
     = ({| Scan.has_cost := 1; Scan.no_cost := 0;
           Scan.total_cost_from_field := 0%float |}, Some OverflowError)
  /\ check [Scan.Lines [big; half]]
     = {| Scan.has_cost := 1; Scan.no_cost := 0;
          Scan.total_cost_from_field := 0%float |}
  /\ check [Scan.Lines [half; big]]
     = {| Scan.has_cost := 2; Scan.no_cost := 0;
          Scan.total_cost_from_field := 0.5%float |}.
Proof.
  cbv zeta. split; [vm_compute; reflexivity |].
  split; [vm_compute; reflexivity |]. split; vm_compute; reflexivity.
Qed.

(** ** The fetchers *)

Section FetchFacts.
Context {F : Type} {N : Number F}.
Import Fetch.

(** A call with a timeout of 30 seconds waits no longer and ends. *)
Lemma subprocess_run_bounded (p : process F) :
  exists (w : Q) (o : outcome (completed F)),
    subprocess_run (Some 30%Q) p = ([Shape.bounded_call w], o)
    /\ (w <= 30)%Q /\ o <> Diverges.
Proof.
  destruct p as [seconds c | seconds | | msg]; cbn.
  - destruct (Qle_bool seconds 30) eqn:Hle; do 2 eexists;
      (split; [reflexivity | split; [| discriminate]]).
    + now apply Qle_bool_iff.
    + apply Qle_refl.
  - destruct (Qle_bool seconds 30) eqn:Hle; do 2 eexists;
      (split; [reflexivity | split; [| discriminate]]).
    + now apply Qle_bool_iff.
    + apply Qle_refl.
  - do 2 eexists. split; [reflexivity | split; [apply Qle_refl | discriminate]].
  - do 2 eexists. split; [reflexivity | split; [discriminate | discriminate]].
Qed.

Lemma build_nonempty (tool : string) (entry d : dict F) :
  build tool entry = Ok d -> missing (Some d) = false.
Proof.
  unfold build.
  destruct (getitem entry "date"); [| discriminate].
  destruct (getitem entry "inputTokens"); [| discriminate].
  destruct (getitem entry "outputTokens"); [| discriminate].
  destruct (getitem entry "cacheCreationTokens"); [| discriminate].
  destruct (getitem entry "cacheReadTokens"); [| discriminate].
  destruct (getitem entry "totalTokens"); [| discriminate].
  cbn. intros Hd. injection Hd as <-. reflexivity.
Qed.

Lemma find_day_nonempty (entries : list (json F)) (d : dict F) :
  find_day entries = Ok (Some d) -> missing (Some d) = false.
Proof.
  induction entries as [| entry rest IH]; cbn; [discriminate |].
  destruct entry as [| | | | | | e]; try discriminate.
  destruct (is_target_date (get e "date" JNull)); [| exact IH].
  destruct (build "ccusage" e) as [d' |] eqn:Hb; cbn; [| discriminate].
  intros Hd. injection Hd as <-. exact (build_nonempty _ _ _ Hb).
Qed.

(** What a fetcher does after its call, from what the call came to and
    what the output holds. *)
Lemma run_ccusage_json_after_call (p : process F) (log : list event)
  (o : outcome (completed F)) :
  subprocess_run (Some 30%Q) p = (log, o) ->
  run_ccusage_json p
  = match o with
    | Returns result =>
        if negb (returncode result =? 0)
        then (log ++ [Stderr (Text ("ccusage failed: " ++ stderr result))], Returns None)
        else
          match bind (stdout result)
                  (fun data =>
                     bind (daily_of data)
                       (fun daily => bind (iter_values daily) find_day)) with
          | Ok (Some d) => (log, Returns (Some d))
          | Ok None =>
              (log ++ [Stderr (Text "No data found for 2025-06-09 in ccusage output")],
               Returns None)
          | Raise e => (log ++ [Stderr (ccusage_failure e)], Returns None)
          end
    | Raises e => (log ++ [Stderr (ccusage_failure e)], Returns None)
    | Diverges => (log, Diverges)
    end.
Proof.
  intros Hrun. unfold run_ccusage_json, ccusage_body. rewrite Hrun.
  destruct o as [result | e |]; cbn [and_then try_except]; try reflexivity.
  destruct (negb (returncode result =? 0)); cbn; [reflexivity |].
  destruct (bind (stdout result) _) as [[d |] | e]; cbn;
    rewrite ?app_nil_r; reflexivity.
Qed.

Lemma run_swift_cli_json_after_call (p : process F) (log : list event)
  (o : outcome (completed F)) :
  subprocess_run (Some 30%Q) p = (log, o) ->
  run_swift_cli_json p
  = match o with
    | Returns result =>
        if negb (returncode result =? 0)
        then (log ++ [Stderr (Text ("Swift CLI failed: " ++ stderr result))], Returns None)
        else
          match bind (stdout result)
                  (fun data =>
                     bind (daily_of data)
                       (fun daily_data =>
                          if truthy daily_data then
                            bind (first_of daily_data)
                              (fun entry =>
                                 match entry with
                                 | JObj e =>
                                     bind (build "swift_cli" e) (fun d => Ok (Some d))
                                 | _ => Raise TypeError
                                 end)
                          else Ok None)) with
          | Ok (Some d) => (log, Returns (Some d))
          | Ok None =>
              (log ++ [Stderr (Text "No daily data found in Swift CLI output")],
               Returns None)
          | Raise e => (log ++ [Stderr (swift_failure e)], Returns None)
          end
    | Raises e => (log ++ [Stderr (swift_failure e)], Returns None)
    | Diverges => (log, Diverges)
    end.
Proof.
  intros Hrun. unfold run_swift_cli_json, swift_body. rewrite Hrun.
  destruct o as [result | e |]; cbn [and_then try_except]; try reflexivity.
  destruct (negb (returncode result =? 0)); cbn; [reflexivity |].
  destruct (bind (stdout result) _) as [[d |] | e]; cbn;
    rewrite ?app_nil_r; reflexivity.
Qed.

(** Both fetchers make one call, which waits at most 30 seconds, and
    return: a dictionary and nothing on the error stream, or no dictionary
    and one line on the error stream. *)
Lemma run_ccusage_json_returns (p : process F) :
  exists w : Q,
    (w <= 30)%Q
    /\ ((exists d, run_ccusage_json p = ([Shape.bounded_call w], Returns (Some d))
                   /\ missing (Some d) = false)
        \/ (exists m, run_ccusage_json p
                      = ([Shape.bounded_call w; Stderr m], Returns None))).
Proof.
  destruct (subprocess_run_bounded p) as (w & o & Hrun & Hw & Ho).
  exists w. split; [exact Hw |].
  rewrite (run_ccusage_json_after_call p _ o Hrun).
  destruct o as [result | e |]; [| | contradiction].
  - destruct (negb (returncode result =? 0)); [right; eexists; reflexivity |].
    match goal with
    | |- context [bind (stdout result) ?k] =>
        destruct (bind (stdout result) k) as [[d |] | e] eqn:Hfind
    end.
    + left. exists d. split; [reflexivity |].
      destruct (stdout result) as [data |]; cbn in Hfind; [| discriminate].
      destruct (daily_of data) as [daily |]; cbn in Hfind; [| discriminate].
      destruct (iter_values daily) as [entries |]; cbn in Hfind; [| discriminate].
      exact (find_day_nonempty _ _ Hfind).
    + right; eexists; reflexivity.
    + right; eexists; reflexivity.
  - right; eexists; reflexivity.
Qed.

Lemma run_swift_cli_json_returns (p : process F) :
  exists w : Q,
    (w <= 30)%Q
    /\ ((exists d, run_swift_cli_json p = ([Shape.bounded_call w], Returns (Some d))
                   /\ missing (Some d) = false)
        \/ (exists m, run_swift_cli_json p
                      = ([Shape.bounded_call w; Stderr m], Returns None))).
Proof.
  destruct (subprocess_run_bounded p) as (w & o & Hrun & Hw & Ho).
  exists w. split; [exact Hw |].
  rewrite (run_swift_cli_json_after_call p _ o Hrun).
  destruct o as [result | e |]; [| | contradiction].
  - destruct (negb (returncode result =? 0)); [right; eexists; reflexivity |].
    match goal with
    | |- context [bind (stdout result) ?k] =>
        destruct (bind (stdout result) k) as [[d |] | e] eqn:Hfind
    end.
    + left. exists d. split; [reflexivity |].
      destruct (stdout result) as [data |]; cbn in Hfind; [| discriminate].
      destruct (daily_of data) as [daily |]; cbn in Hfind; [| discriminate].
      destruct (truthy daily); [| discriminate].
      destruct (first_of daily) as [entry |]; cbn in Hfind; [| discriminate].
      destruct entry as [| | | | | | e]; try discriminate.
      destruct (build "swift_cli" e) as [d' |] eqn:Hb; cbn in Hfind; [| discriminate].
      injection Hfind as <-. exact (build_nonempty _ _ _ Hb).
    + right; eexists; reflexivity.
    + right; eexists; reflexivity.
  - right; eexists; reflexivity.
Qed.

(** A command that has not exited after 30 seconds. *)
Lemma subprocess_run_late (p : process F) :
  p = Hangs
  \/ (exists seconds c, p = Exits seconds c /\ (30 < seconds)%Q)
  \/ (exists seconds, p = Garbles seconds /\ (30 < seconds)%Q) ->
  subprocess_run (Some 30%Q) p = ([Shape.bounded_call 30], Raises TimeoutExpired).
Proof.
  intros [-> | [(seconds & c & -> & Hlate) | (seconds & -> & Hlate)]];
    [reflexivity | |]; cbn;
    (destruct (Qle_bool seconds 30) eqn:Hle; [| reflexivity]);
    apply Qle_bool_iff in Hle; exfalso; exact (Qlt_not_le _ _ Hlate Hle).
Qed.

End FetchFacts.

(** C7, as amended.  [run_ccusage_json] runs the command once, with a
    timeout of 30 seconds, and that one call waits at most 30 seconds.
    The fetcher always returns, with a dictionary and a silent error
    stream or with no dictionary and one line on the error stream; it
    raises nothing and runs nothing a second time.  On a timeout, on a
    non-zero exit status and on output that is not JSON it returns no
    dictionary and writes the line that names the failure; a command that
    has not exited after 30 seconds is a timeout. *)
Theorem run_ccusage_json_bounded_and_reports :
  forall (F : Type) (N : Number F) (p : Fetch.process F),
    (exists w : Q,
        (w <= 30)%Q
        /\ let call := Fetch.Run {| Fetch.call_timeout := Some 30%Q;
                                    Fetch.call_waited := Some w |} in
           ((exists d, Fetch.run_ccusage_json p = ([call], Fetch.Returns (Some d)))
            \/ (exists m, Fetch.run_ccusage_json p
                          = ([call; Fetch.Stderr m], Fetch.Returns None))))
    /\ (forall log,
          Fetch.subprocess_run (Some 30%Q) p = (log, Fetch.Raises TimeoutExpired) ->
          Fetch.run_ccusage_json p
          = (log ++ [Fetch.Stderr (Fetch.Text "ccusage timed out")],
             Fetch.Returns None))
    /\ (forall log result,
          Fetch.subprocess_run (Some 30%Q) p = (log, Fetch.Returns result) ->
          Fetch.returncode result <> 0 ->
          Fetch.run_ccusage_json p
          = (log ++ [Fetch.Stderr
                       (Fetch.Text ("ccusage failed: " ++ Fetch.stderr result))],
             Fetch.Returns None))
    /\ (forall log result msg,
          Fetch.subprocess_run (Some 30%Q) p = (log, Fetch.Returns result) ->
          Fetch.returncode result = 0 ->
          Fetch.stdout result = Raise (JSONDecodeError msg) ->
          Fetch.run_ccusage_json p
          = (log ++ [Fetch.Stderr
                       (Fetch.TextExn "Failed to parse ccusage JSON: "
                                      (JSONDecodeError msg))],
             Fetch.Returns None))
    /\ (p = Fetch.Hangs
        \/ (exists seconds c, p = Fetch.Exits seconds c /\ (30 < seconds)%Q)
        \/ (exists seconds, p = Fetch.Garbles seconds /\ (30 < seconds)%Q) ->
        Fetch.run_ccusage_json p
        = ([Fetch.Run {| Fetch.call_timeout := Some 30%Q;
                         Fetch.call_waited := Some 30%Q |};
            Fetch.Stderr (Fetch.Text "ccusage timed out")],
           Fetch.Returns None)).
Proof.
  intros F N p. split; [| split; [| split; [| split]]].
  - destruct (run_ccusage_json_returns p) as (w & Hw & [(d & Hd & _) | (m & Hm)]);
      exists w; (split; [exact Hw |]); cbv zeta; [left | right]; eauto.
  - intros log Hrun. rewrite (run_ccusage_json_after_call p _ _ Hrun). reflexivity.
  - intros log result Hrun Hrc. rewrite (run_ccusage_json_after_call p _ _ Hrun).
    destruct (Z.eqb_spec (Fetch.returncode result) 0); [contradiction | reflexivity].
  - intros log result msg Hrun Hrc Hout.
    rewrite (run_ccusage_json_after_call p _ _ Hrun), Hrc, Hout. reflexivity.
  - intros Hlate.
    rewrite (run_ccusage_json_after_call p _ _ (subprocess_run_late p Hlate)).
    reflexivity.
Qed.

Lemma run_ccusage_json_bounded_and_reports_witness :
  Fetch.run_ccusage_json Samples.failed_process
  = ([Fetch.Run {| Fetch.call_timeout := Some 30%Q; Fetch.call_waited := Some 1%Q |};
      Fetch.Stderr (Fetch.Text "ccusage failed: npm error")],
     Fetch.Returns None).
Proof.
  apply (proj1 (proj2 (proj2
           (run_ccusage_json_bounded_and_reports float binary64
              Samples.failed_process)))
           [Fetch.Run {| Fetch.call_timeout := Some 30%Q;
                         Fetch.call_waited := Some 1%Q |}]
           {| Fetch.returncode := 1;
              Fetch.stdout := Raise (JSONDecodeError "Expecting value: line 1 column 1 (char 0)");
              Fetch.stderr := "npm error" |}).
  - reflexivity.
  - discriminate.
Defined.

(** The same command in the one-off scripts runs with no timeout: a
    command that never exits is waited for without end, and output that is
    not JSON raises out of the script, whatever the exit status.  No call
    of theirs has the timeout of 30 seconds. *)
Lemma one_off_fetch_unbounded_and_raises :
  let forever := Fetch.Run {| Fetch.call_timeout := None;
                              Fetch.call_waited := None |} in
  let a_second := Fetch.Run {| Fetch.call_timeout := None;
                               Fetch.call_waited := Some 1%Q |} in
  let no_json := JSONDecodeError "Expecting value: line 1 column 1 (char 0)" in
  Fetch.fetch_daily (Fetch.Hangs : Fetch.process float) = ([forever], Fetch.Diverges)
  /\ CacheRateScript.script input_rate output_rate Fetch.Hangs
     = ([forever], Fetch.Diverges)
  /\ Fetch.fetch_daily Samples.failed_process = ([a_second], Fetch.Raises no_json)
  /\ CacheRateScript.script input_rate output_rate Samples.failed_process
     = ([a_second], Fetch.Raises no_json)
  /\ (forall (w : Q) (log : list Fetch.event) o,
        Fetch.fetch_daily (Fetch.Hangs : Fetch.process float)
        = (Fetch.Run {| Fetch.call_timeout := Some 30%Q;
                        Fetch.call_waited := Some w |} :: log, o) -> False).
Proof.
  cbv zeta. split; [reflexivity |]. split; [reflexivity |].
  split; [reflexivity |]. split; [reflexivity |].
  intros w log o Heq. discriminate Heq.
Qed.

(** ** The exit status of [compare_json.py] *)

Section MainFacts.
Context {F : Type} {N : Number F}.
Import Fetch.


End MainFacts.




(** * Further properties of the scripts *)

(** ** [compare_results] *)

Section CompareMore.
Context {F : Type} {N : Number F}.
Import Compare.






Lemma compare_metric_ext (c c' s s' : dict F) :
  (forall key, get c key (JInt 0) = get c' key (JInt 0)) ->
  (forall key, get s key (JInt 0) = get s' key (JInt 0)) ->
  forall st m, compare_metric c s st m = compare_metric c' s' st m.
Proof.
  intros Hc Hs st [lbl key]. unfold compare_metric. now rewrite Hc, Hs.
Qed.

Lemma compare_results_ext (c c' s s' : dict F) :
  (forall key, get c key (JInt 0) = get c' key (JInt 0)) ->
  (forall key, get s key (JInt 0) = get s' key (JInt 0)) ->
  compare_results c s = compare_results c' s'.
Proof.
  intros Hc Hs. unfold compare_results.
  assert (Hloop : forall ms st, compare_loop c s st ms = compare_loop c' s' st ms).
  { induction ms as [| m ms IH]; intros st; cbn [compare_loop]; [reflexivity |].
    rewrite (compare_metric_ext c c' s s' Hc Hs).
    destruct (compare_metric c' s' st m); cbn [bind]; auto. }
  rewrite Hloop. unfold summary. now rewrite Hc.
Qed.

Lemma get_absent_key (d : dict F) (key : string) :
  contains d key = false ->
  forall k, get ((key, JInt 0) :: d) k (JInt 0) = get d k (JInt 0).
Proof.
  intros Hno k. unfold get, contains in *. cbn [assoc].
  destruct (String.eqb_spec k key) as [-> | Hk]; [| reflexivity].
  destruct (assoc key d); [discriminate | reflexivity].
Qed.

(** X3.  A metric that a result lacks is compared as 0: giving the key the
    value 0, on either side, changes nothing of what [compare_results]
    prints and returns. *)
Theorem compare_results_missing_metric_is_zero (c s : dict F) (key : string) :
  contains c key = false ->
  compare_results ((key, JInt 0) :: c) s = compare_results c s
  /\ compare_results s ((key, JInt 0) :: c) = compare_results s c.
Proof.
  intros Hno. split; apply compare_results_ext;
    auto using get_absent_key.
Qed.

End CompareMore.



Lemma compare_results_missing_metric_is_zero_witness :
  Compare.compare_results
    (("cacheReadTokens"%string, JInt 0) :: [("inputTokens"%string, JInt 7)])
    Samples.swift_sample
  = Compare.compare_results [("inputTokens"%string, JInt 7)] Samples.swift_sample.
Proof.
  exact (proj1 (compare_results_missing_metric_is_zero (F := float)
                  [("inputTokens"%string, JInt 7)] Samples.swift_sample
                  "cacheReadTokens"%string eq_refl)).
Defined.

(** *** What [compare_results] raises, in binary64 *)


Lemma as_num_not_number {F : Type} (v : json F) :
  Scan.is_number v = false -> as_num v = Raise TypeError.
Proof.
  destruct v; cbn; try discriminate; reflexivity.
Qed.



(** An operation on numbers raises nothing but [OverflowError], and the
    division of line 122 is by no zero where the test of line 121
    passes. *)
Lemma to_float_raises (a : num float) (e : exn) :
  to_float a = Raise e -> e = OverflowError.
Proof.
  destruct a as [n | x]; cbn; [| discriminate].
  unfold float_of. destruct (int_fits n); [discriminate |].
  intros He. now injection He as <-.
Qed.








(** *** Numbers of modest size raise nothing *)











(** ** [main] *)



(** ** The fetchers *)

Section FetchMore.
Context {F : Type} {N : Number F}.
Import Fetch.

Lemma find_day_first_match (before after : list (json F)) (entry : dict F) :
  forallb Shape.other_day before = true ->
  is_target_date (get entry "date" JNull) = true ->
  find_day (before ++ JObj entry :: after)
  = bind (build "ccusage" entry) (fun d => Ok (Some d)).
Proof.
  intros Hbefore Hday. induction before as [| x before IH]; cbn.
  - now rewrite Hday.
  - cbn in Hbefore. rewrite andb_true_iff in Hbefore. destruct Hbefore as [Hx Hb].
    destruct x as [| | | | | | m]; try discriminate.
    cbn in Hx. rewrite negb_true_iff in Hx. rewrite Hx. now apply IH.
Qed.

Lemma find_day_no_match (entries : list (json F)) :
  forallb Shape.other_day entries = true -> find_day entries = Ok None.
Proof.
  induction entries as [| x entries IH]; cbn; [reflexivity |].
  rewrite andb_true_iff. intros [Hx Hrest].
  destruct x as [| | | | | | m]; try discriminate.
  cbn in Hx. rewrite negb_true_iff in Hx. rewrite Hx. now apply IH.
Qed.

(** The fetcher on a command that exits in time with status 0 and prints
    an object. *)
Lemma run_ccusage_json_on_output (seconds : Q) (result : completed F) (data : dict F) :
  Qle_bool seconds 30 = true ->
  returncode result = 0 ->
  stdout result = Ok (JObj data) ->
  run_ccusage_json (Exits seconds result)
  = match bind (iter_values (get data "daily" (JArr []))) find_day with
    | Ok (Some d) => ([Shape.bounded_call seconds], Returns (Some d))
    | Ok None =>
        ([Shape.bounded_call seconds;
          Stderr (Text "No data found for 2025-06-09 in ccusage output")],
         Returns None)
    | Raise e =>
        ([Shape.bounded_call seconds; Stderr (ccusage_failure e)], Returns None)
    end.
Proof.
  intros Htime Hrc Hout.
  rewrite (run_ccusage_json_after_call (Exits seconds result)
             [Shape.bounded_call seconds] (Returns result))
    by (cbn; now rewrite Htime).
  rewrite Hrc, Hout. reflexivity.
Qed.

(** X6.  [run_ccusage_json] returns the first entry of the day: when the
    command exits in time with status 0 and prints an object whose [daily]
    list holds, after objects of other days, an object of 2025-06-09 that
    [build] accepts, the fetcher returns the dictionary built from that
    entry and writes nothing to the error stream, whatever follows the
    entry in the list; it has run the command once. *)
Theorem run_ccusage_json_first_entry_of_the_day
  (seconds : Q) (result : completed F) (data entry d : dict F)
  (before after : list (json F)) :
  Qle_bool seconds 30 = true ->
  returncode result = 0 ->
  stdout result = Ok (JObj data) ->
  get data "daily" (JArr []) = JArr (before ++ JObj entry :: after) ->
  forallb Shape.other_day before = true ->
  is_target_date (get entry "date" JNull) = true ->
  build "ccusage" entry = Ok d ->
  run_ccusage_json (Exits seconds result)
  = ([Run {| call_timeout := Some 30%Q; call_waited := Some seconds |}],
     Returns (Some d)).
Proof.
  intros Htime Hrc Hout Hdaily Hbefore Hday Hbuild.
  rewrite (run_ccusage_json_on_output seconds result data Htime Hrc Hout), Hdaily.
  cbn [iter_values bind].
  rewrite (find_day_first_match before after entry Hbefore Hday), Hbuild.
  reflexivity.
Qed.

(** X7.  When no entry is of the day, the fetcher says so and returns
    nothing: the command exits in time with status 0 and prints an object
    whose [daily] list holds only objects of other days, or is empty, or is
    missing. *)
Theorem run_ccusage_json_no_entry_of_the_day
  (seconds : Q) (result : completed F) (data : dict F) (entries : list (json F)) :
  Qle_bool seconds 30 = true ->
  returncode result = 0 ->
  stdout result = Ok (JObj data) ->
  get data "daily" (JArr []) = JArr entries ->
  forallb Shape.other_day entries = true ->
  run_ccusage_json (Exits seconds result)
  = ([Run {| call_timeout := Some 30%Q; call_waited := Some seconds |};
      Stderr (Text "No data found for 2025-06-09 in ccusage output")],
     Returns None).
Proof.
  intros Htime Hrc Hout Hdaily Hother.
  rewrite (run_ccusage_json_on_output seconds result data Htime Hrc Hout), Hdaily.
  cbn [iter_values bind]. rewrite (find_day_no_match entries Hother).
  reflexivity.
Qed.

End FetchMore.

Section BuildFacts.
Context {F : Type} {N : Number F}.
Import Fetch.

Lemma build_cases (tool : string) (entry : dict F) :
  build tool entry
  = match Shape.first_missing entry with
    | Some key => Raise (KeyError key)
    | None =>
        Ok [ ("tool", JStr tool); ("date", get entry "date" JNull);
             ("inputTokens", get entry "inputTokens" JNull);
             ("outputTokens", get entry "outputTokens" JNull);
             ("cacheCreationTokens", get entry "cacheCreationTokens" JNull);
             ("cacheReadTokens", get entry "cacheReadTokens" JNull);
             ("totalTokens", get entry "totalTokens" JNull);
             ("totalCost", get entry "totalCost" (JInt 0)) ]%string
    end.
Proof.
  unfold build, Shape.first_missing, Shape.required_keys, getitem, contains, get.
  cbn [find].
  destruct (assoc "date" entry); cbn; [| reflexivity].
  destruct (assoc "inputTokens" entry); cbn; [| reflexivity].
  destruct (assoc "outputTokens" entry); cbn; [| reflexivity].
  destruct (assoc "cacheCreationTokens" entry); cbn; [| reflexivity].
  destruct (assoc "cacheReadTokens" entry); cbn; [| reflexivity].
  destruct (assoc "totalTokens" entry); cbn; reflexivity.
Qed.

(** X8.  [build] raises [KeyError] for the first of [date], [inputTokens],
    [outputTokens], [cacheCreationTokens], [cacheReadTokens] and
    [totalTokens] that the entry lacks, and never for [totalCost], which
    reads as 0 when missing.  The dictionary it builds otherwise gives the
    entry's own value under each of the five metrics, names the tool, and
    is compared as the entry itself would be. *)
Theorem build_missing_key_and_lookup (tool : string) (entry : dict F) :
  (forall key, Shape.first_missing entry = Some key ->
               build tool entry = Raise (KeyError key))
  /\ (Shape.first_missing entry = None ->
      exists d,
        build tool entry = Ok d
        /\ get d "tool" JNull = JStr tool
        /\ get d "totalCost" JNull = get entry "totalCost" (JInt 0)
        /\ (forall m, In m Compare.metrics ->
                      get d (snd m) (JInt 0) = get entry (snd m) (JInt 0))
        /\ Compare.tokens_of d = Compare.tokens_of entry).
Proof.
  rewrite build_cases. split.
  - intros key ->. reflexivity.
  - intros Hnone. rewrite Hnone. eexists. split; [reflexivity |].
    assert (Hpresent : forall key, In key Shape.required_keys ->
                                   get entry key JNull = get entry key (JInt 0)).
    { intros key Hin. unfold Shape.first_missing in Hnone.
      pose proof (find_none _ _ Hnone key Hin) as Hk.
      rewrite negb_false_iff in Hk. unfold contains, get in *.
      destruct (assoc key entry); [reflexivity | discriminate]. }
    assert (Hmetrics : forall m, In m Compare.metrics ->
              get [ ("tool", JStr tool); ("date", get entry "date" JNull);
                    ("inputTokens", get entry "inputTokens" JNull);
                    ("outputTokens", get entry "outputTokens" JNull);
                    ("cacheCreationTokens", get entry "cacheCreationTokens" JNull);
                    ("cacheReadTokens", get entry "cacheReadTokens" JNull);
                    ("totalTokens", get entry "totalTokens" JNull);
                    ("totalCost", get entry "totalCost" (JInt 0)) ]%string
                  (snd m) (JInt 0)
              = get entry (snd m) (JInt 0)).
    { intros m Hin. cbn in Hin.
      destruct Hin as [<- | [<- | [<- | [<- | [<- | []]]]]]; cbn [snd];
        (etransitivity; [reflexivity | apply Hpresent; cbn; tauto]). }
    split; [reflexivity | split; [reflexivity | split; [exact Hmetrics |]]].
    unfold Compare.tokens_of, Compare.int_metric.
    pose proof (Hmetrics ("Input", "inputTokens")%string) as Hi.
    pose proof (Hmetrics ("Output", "outputTokens")%string) as Ho.
    pose proof (Hmetrics ("Cache Create", "cacheCreationTokens")%string) as Hcc.
    pose proof (Hmetrics ("Cache Read", "cacheReadTokens")%string) as Hcr.
    pose proof (Hmetrics ("Total", "totalTokens")%string) as Ht.
    cbn [snd] in Hi, Ho, Hcc, Hcr, Ht.
    rewrite Hi, Ho, Hcc, Hcr, Ht by (cbn; tauto).
    reflexivity.
Qed.

End BuildFacts.

Section SwiftFetcher.
Context {F : Type} {N : Number F}.
Import Fetch.

(** X9.  [run_swift_cli_json] does not look at the date: when the command
    exits in time with status 0 and prints an object whose [daily] list
    starts with an object that [build] accepts, the fetcher returns the
    dictionary built from that first entry, whatever its date and whatever
    follows it; it has run the command once. *)
Theorem run_swift_cli_json_takes_first_entry
  (seconds : Q) (result : completed F) (data entry d : dict F)
  (rest : list (json F)) :
  Qle_bool seconds 30 = true ->
  returncode result = 0 ->
  stdout result = Ok (JObj data) ->
  get data "daily" (JArr []) = JArr (JObj entry :: rest) ->
  build "swift_cli" entry = Ok d ->
  run_swift_cli_json (Exits seconds result)
  = ([Run {| call_timeout := Some 30%Q; call_waited := Some seconds |}],
     Returns (Some d)).
Proof.
  intros Htime Hrc Hout Hdaily Hbuild.
  rewrite (run_swift_cli_json_after_call (Exits seconds result)
             [Shape.bounded_call seconds] (Returns result))
    by (cbn; now rewrite Htime).
  rewrite Hrc, Hout. cbn [negb Z.eqb bind daily_of].
  rewrite Hdaily. cbn [truthy first_of bind]. rewrite Hbuild. reflexivity.
Qed.

(** X10.  [run_swift_cli_json] runs its command once, with a timeout of 30
    seconds, and that one call waits at most 30 seconds.  The fetcher
    always returns: a dictionary and a silent error stream, or no
    dictionary and one line on the error stream; it raises nothing and
    runs nothing a second time.  A timeout has no handler of its own and
    is reported by the general one; a non-zero exit status and output that
    is not JSON are reported by name. *)
Theorem run_swift_cli_json_bounded_and_reports (p : process F) :
  (exists w : Q,
      (w <= 30)%Q
      /\ let call := Run {| call_timeout := Some 30%Q; call_waited := Some w |} in
         ((exists d, run_swift_cli_json p = ([call], Returns (Some d)))
          \/ (exists m, run_swift_cli_json p = ([call; Stderr m], Returns None))))
  /\ (forall log,
        subprocess_run (Some 30%Q) p = (log, Raises TimeoutExpired) ->
        run_swift_cli_json p
        = (log ++ [Stderr (TextExn "Error running Swift CLI: " TimeoutExpired)],
           Returns None))
  /\ (forall log result,
        subprocess_run (Some 30%Q) p = (log, Returns result) ->
        returncode result <> 0 ->
        run_swift_cli_json p
        = (log ++ [Stderr (Text ("Swift CLI failed: " ++ stderr result))],
           Returns None))
  /\ (forall log result msg,
        subprocess_run (Some 30%Q) p = (log, Returns result) ->
        returncode result = 0 ->
        stdout result = Raise (JSONDecodeError msg) ->
        run_swift_cli_json p
        = (log ++ [Stderr (TextExn "Failed to parse Swift CLI JSON: "
                                   (JSONDecodeError msg))],
           Returns None))
  /\ (p = Hangs
      \/ (exists seconds c, p = Exits seconds c /\ (30 < seconds)%Q)
      \/ (exists seconds, p = Garbles seconds /\ (30 < seconds)%Q) ->
      run_swift_cli_json p
      = ([Run {| call_timeout := Some 30%Q; call_waited := Some 30%Q |};
          Stderr (TextExn "Error running Swift CLI: " TimeoutExpired)],
         Returns None)).
Proof.
  split; [| split; [| split; [| split]]].
  - destruct (run_swift_cli_json_returns p) as (w & Hw & [(d & Hd & _) | (m & Hm)]);
      exists w; (split; [exact Hw |]); cbv zeta; [left | right]; eauto.
  - intros log Hrun. rewrite (run_swift_cli_json_after_call p _ _ Hrun). reflexivity.
  - intros log result Hrun Hrc. rewrite (run_swift_cli_json_after_call p _ _ Hrun).
    destruct (Z.eqb_spec (returncode result) 0); [contradiction | reflexivity].
  - intros log result msg Hrun Hrc Hout.
    rewrite (run_swift_cli_json_after_call p _ _ Hrun), Hrc, Hout. reflexivity.
  - intros Hlate.
    rewrite (run_swift_cli_json_after_call p _ _ (subprocess_run_late p Hlate)).
    reflexivity.
Qed.

End SwiftFetcher.

Lemma run_ccusage_json_first_entry_of_the_day_witness :
  Fetch.run_ccusage_json (Fetch.Exits 2%Q (Cases.prints Cases.two_days))
  = ([Fetch.Run {| Fetch.call_timeout := Some 30%Q; Fetch.call_waited := Some 2%Q |}],
     Fetch.Returns
       (Some (("tool", JStr "ccusage")
              :: Cases.entry_on "2025-06-09" 100 200 300 400 1000
              ++ [("totalCost", JInt 0)])%string)).
Proof.
  apply (run_ccusage_json_first_entry_of_the_day (F := float) 2%Q
           (Cases.prints Cases.two_days)
           [("daily", JArr Cases.two_days)]%string
           (Cases.entry_on "2025-06-09" 100 200 300 400 1000) _
           [JObj (Cases.entry_on "2025-06-08" 1 2 3 4 10)] [JNull]);
    reflexivity.
Defined.

Lemma run_ccusage_json_no_entry_of_the_day_witness :
  Fetch.run_ccusage_json (Fetch.Exits 2%Q (Cases.prints Cases.another_day))
  = ([Fetch.Run {| Fetch.call_timeout := Some 30%Q; Fetch.call_waited := Some 2%Q |};
      Fetch.Stderr (Fetch.Text "No data found for 2025-06-09 in ccusage output")],
     Fetch.Returns None).
Proof.
  apply (run_ccusage_json_no_entry_of_the_day (F := float) 2%Q
           (Cases.prints Cases.another_day)
           [("daily", JArr Cases.another_day)]%string Cases.another_day);
    reflexivity.
Defined.

Lemma build_missing_key_and_lookup_witness :
  Fetch.build "ccusage"
    [("date", JStr "2025-06-09"); ("inputTokens", JInt 1)]%string
  = (Raise (KeyError "outputTokens") : result (dict float)).
Proof.
  apply (proj1 (build_missing_key_and_lookup (F := float) "ccusage"
                  [("date", JStr "2025-06-09"); ("inputTokens", JInt 1)]%string)).
  reflexivity.
Defined.

Lemma run_swift_cli_json_takes_first_entry_witness :
  Fetch.run_swift_cli_json (Fetch.Exits 5%Q (Cases.prints Cases.another_day))
  = ([Fetch.Run {| Fetch.call_timeout := Some 30%Q; Fetch.call_waited := Some 5%Q |}],
     Fetch.Returns
       (Some (("tool", JStr "swift_cli")
              :: Cases.entry_on "2025-06-08" 1 2 3 4 10
              ++ [("totalCost", JInt 0)])%string)).
Proof.
  apply (run_swift_cli_json_takes_first_entry (F := float) 5%Q
           (Cases.prints Cases.another_day)
           [("daily", JArr Cases.another_day)]%string
           (Cases.entry_on "2025-06-08" 1 2 3 4 10) _ []);
    reflexivity.
Defined.

Lemma run_swift_cli_json_bounded_and_reports_witness :
  Fetch.run_swift_cli_json (Fetch.Hangs : Fetch.process float)
  = ([Fetch.Run {| Fetch.call_timeout := Some 30%Q; Fetch.call_waited := Some 30%Q |};
      Fetch.Stderr (Fetch.TextExn "Error running Swift CLI: " TimeoutExpired)],
     Fetch.Returns None).
Proof.
  apply (proj2 (proj2 (proj2 (proj2
           (run_swift_cli_json_bounded_and_reports (F := float) Fetch.Hangs))))).
  left. reflexivity.
Defined.

(** ** The log scanner, line by line *)

Section ScanMore.
Context {F : Type} {N : Number F}.
Variable accepts : Scan.printed F -> bool.
Variable date_prefix : string.
Import Scan.

(** A line that leaves the variables as they are and raises nothing can
    be taken out of its file. *)
Lemma scan_lines_skip (l : line F) (before after : list (line F)) :
  (forall st ls, scan_lines accepts date_prefix st (l :: ls)
                 = scan_lines accepts date_prefix st ls) ->
  forall st,
    scan_lines accepts date_prefix st (before ++ l :: after)
    = scan_lines accepts date_prefix st (before ++ after).
Proof.
  intros Hskip. induction before as [| x before IH]; intros st.
  - apply Hskip.
  - cbn [app scan_lines]. destruct x as [| | data]; auto.
    destruct (scan_record accepts date_prefix st data) as [st' [e |]]; auto.
Qed.

(** A line on which [scan_record] raises without tallying ends its file
    there. *)
Lemma scan_lines_stop (v : json F) (before after : list (line F)) :
  (forall st, exists e, scan_record accepts date_prefix st v = (st, Some e)) ->
  forall st,
    scan_lines accepts date_prefix st (before ++ Parsed v :: after)
    = scan_lines accepts date_prefix st before.
Proof.
  intros Hstop. induction before as [| x before IH]; intros st.
  - cbn. destruct (Hstop st) as [e ->]. reflexivity.
  - cbn [app scan_lines]. destruct x as [| | data]; auto.
    destruct (scan_record accepts date_prefix st data) as [st' [e |]]; auto.
Qed.

(** X11.  Blank lines do not matter: a file tallies the same with a blank
    line taken out, wherever it stands. *)
Theorem blank_line_changes_nothing (before after : list (line F)) (st : tally F) :
  scan_lines accepts date_prefix st (before ++ Blank :: after)
  = scan_lines accepts date_prefix st (before ++ after).
Proof.
  apply scan_lines_skip. reflexivity.
Qed.

(** X12.  A line that parses to something other than an object, or to an
    object whose [timestamp] is not a string, raises [AttributeError]
    without being tallied, and ends the scan of its file like a line that
    does not parse: what follows it in the file is not read. *)
Theorem line_without_timestamp_test_ends_its_file
  (v : json F) (before after : list (line F)) (st : tally F) :
  Shape.no_timestamp_test v = true ->
  scan_record accepts date_prefix st v = (st, Some AttributeError)
  /\ scan_lines accepts date_prefix st (before ++ Parsed v :: after)
     = scan_lines accepts date_prefix st before.
Proof.
  intros Hv.
  assert (Hrec : forall st',
             scan_record accepts date_prefix st' v = (st', Some AttributeError)).
  { intros st'. unfold Shape.no_timestamp_test in Hv. unfold scan_record.
    destruct v as [| | | | | | d]; try reflexivity.
    destruct (get d "timestamp" (JStr "")); try reflexivity; discriminate. }
  split; [apply Hrec |]. apply scan_lines_stop. intros st'. eauto.
Qed.

(** X13.  A record of the day whose [costUSD] is not a number is counted
    among the records with a cost, adds nothing to the sum, and raises
    [TypeError]: the count is one ahead of the sum, and the rest of the
    file is not read. *)
Theorem cost_that_is_no_number_is_counted_not_summed
  (d : dict F) (timestamp : string) (rest : list (line F)) (st : tally F) :
  get d "timestamp" (JStr "") = JStr timestamp ->
  prefix date_prefix timestamp = true ->
  contains d "costUSD" = true ->
  is_number (get d "costUSD" JNull) = false ->
  scan_record accepts date_prefix st (JObj d)
  = ({| has_cost := has_cost st + 1; no_cost := no_cost st;
        total_cost_from_field := total_cost_from_field st |}, Some TypeError)
  /\ scan_lines accepts date_prefix st (Parsed (JObj d) :: rest)
     = {| has_cost := has_cost st + 1; no_cost := no_cost st;
          total_cost_from_field := total_cost_from_field st |}.
Proof.
  intros Hts Hday Hhas Hnum.
  assert (Hrec : scan_record accepts date_prefix st (JObj d)
                 = ({| has_cost := has_cost st + 1; no_cost := no_cost st;
                       total_cost_from_field := total_cost_from_field st |},
                    Some TypeError)).
  { unfold scan_record, add_cost. rewrite Hts, Hday, Hhas.
    rewrite (as_num_not_number _ Hnum). reflexivity. }
  split; [exact Hrec |]. cbn [scan_lines]. rewrite Hrec. reflexivity.
Qed.

(** X14.  A record whose timestamp is a string that does not start with
    the date is passed over whatever else it holds: it changes no tally,
    raises nothing, and the file tallies the same without it. *)
Theorem record_of_another_day_changes_nothing
  (d : dict F) (timestamp : string) (before after : list (line F)) (st : tally F) :
  get d "timestamp" (JStr "") = JStr timestamp ->
  prefix date_prefix timestamp = false ->
  scan_record accepts date_prefix st (JObj d) = (st, None)
  /\ scan_lines accepts date_prefix st (before ++ Parsed (JObj d) :: after)
     = scan_lines accepts date_prefix st (before ++ after).
Proof.
  intros Hts Hday.
  assert (Hrec : forall st', scan_record accepts date_prefix st' (JObj d) = (st', None)).
  { intros st'. unfold scan_record. now rewrite Hts, Hday. }
  split; [apply Hrec |]. apply scan_lines_skip.
  intros st' ls. cbn [scan_lines]. now rewrite Hrec.
Qed.

End ScanMore.

Section ScanCounts.
Context {F : Type} {N : Number F}.
Variable accepts : Scan.printed F -> bool.
Variable date_prefix : string.
Import Scan.

(** One parsed line adds at most one to one of the two counts. *)
Lemma scan_record_counts (st : tally F) (data : json F) :
  let st' := fst (scan_record accepts date_prefix st data) in
  has_cost st <= has_cost st'
  /\ no_cost st <= no_cost st'
  /\ has_cost st' + no_cost st' <= has_cost st + no_cost st + 1.
Proof.
  unfold scan_record.
  repeat match goal with
         | |- context [match ?x with _ => _ end] => destruct x
         end; cbn; lia.
Qed.

Lemma scan_lines_counts (ls : list (line F)) :
  forall st : tally F,
    let st' := scan_lines accepts date_prefix st ls in
    has_cost st <= has_cost st'
    /\ no_cost st <= no_cost st'
    /\ has_cost st' + no_cost st'
       <= has_cost st + no_cost st + fold_right Z.add 0 (map Shape.parsed_in_line ls).
Proof.
  assert (Hnonneg : forall l : list (line F),
             0 <= fold_right Z.add 0 (map Shape.parsed_in_line l)).
  { induction l as [| [| | ?] l IHl]; cbn [map fold_right Shape.parsed_in_line]; lia. }
  induction ls as [| l ls IH]; intros st; cbn [scan_lines map fold_right].
  - cbn. lia.
  - pose proof (Hnonneg ls) as Hls.
    destruct l as [| | data]; cbn [Shape.parsed_in_line].
    + specialize (IH st). cbn zeta in IH. lia.
    + cbn zeta. lia.
    + pose proof (scan_record_counts st data) as Hrec. cbn zeta in Hrec.
      destruct (scan_record accepts date_prefix st data) as [st1 [e |]];
        cbn [fst] in Hrec.
      * cbn zeta. lia.
      * specialize (IH st1). cbn zeta in IH. cbn zeta. lia.
Qed.

Lemma scan_from_counts (files : list (file F)) :
  forall st : tally F,
    let st' := scan_from accepts date_prefix st files in
    has_cost st <= has_cost st'
    /\ no_cost st <= no_cost st'
    /\ has_cost st' + no_cost st'
       <= has_cost st + no_cost st + Shape.parsed_lines files.
Proof.
  unfold scan_from, Shape.parsed_lines.
  induction files as [| f files IH]; intros st; cbn [fold_left map fold_right].
  - cbn. lia.
  - specialize (IH (scan_file accepts date_prefix st f)). cbn zeta in IH.
    assert (Hf : has_cost st <= has_cost (scan_file accepts date_prefix st f)
                 /\ no_cost st <= no_cost (scan_file accepts date_prefix st f)
                 /\ has_cost (scan_file accepts date_prefix st f)
                    + no_cost (scan_file accepts date_prefix st f)
                    <= has_cost st + no_cost st + Shape.parsed_in_file f).
    { destruct f as [| ls | handed lost]; cbn [scan_file Shape.parsed_in_file];
        [lia | apply scan_lines_counts | apply scan_lines_counts]. }
    cbn zeta. lia.
Qed.

(** X15.  Whatever the files hold, the two counts never go down during a
    scan, they end at 0 or more, and together they never exceed the number
    of lines handed out that parsed: no line is counted twice. *)
Theorem counts_bounded_by_parsed_lines (files more : list (file F)) :
  0 <= has_cost (scan accepts date_prefix files)
  /\ 0 <= no_cost (scan accepts date_prefix files)
  /\ has_cost (scan accepts date_prefix files)
     + no_cost (scan accepts date_prefix files)
     <= Shape.parsed_lines files
  /\ has_cost (scan accepts date_prefix files)
     <= has_cost (scan accepts date_prefix (files ++ more))
  /\ no_cost (scan accepts date_prefix files)
     <= no_cost (scan accepts date_prefix (files ++ more)).
Proof.
  unfold scan.
  pose proof (scan_from_counts files
                {| has_cost := 0; no_cost := 0; total_cost_from_field := of_int 0 |})
    as Hfiles.
  cbn zeta in Hfiles. cbn [has_cost no_cost] in Hfiles.
  rewrite scan_from_app.
  pose proof (scan_from_counts more
                (scan_from accepts date_prefix
                   {| has_cost := 0; no_cost := 0; total_cost_from_field := of_int 0 |}
                   files)) as Hmore.
  cbn zeta in Hmore. lia.
Qed.

Lemma day_count_cons (r : json F) (rs : list (json F)) :
  Shape.day_count date_prefix (r :: rs)
  = with_cost date_prefix r + without_cost date_prefix r
    + Shape.day_count date_prefix rs.
Proof.
  unfold Shape.day_count, with_cost, without_cost. cbn [filter].
  destruct (of_the_day date_prefix r); [| lia].
  cbn [List.length]. destruct (cost_of r); lia.
Qed.

(** X16.  On files of usage records, read to their end, with every
    [costUSD] a number within the range of a float and on an output
    stream that takes the lines showing the records, every record of the
    day is counted once, with a cost or without: the two counts add up to
    the number of records whose timestamp starts with the date. *)
Theorem counts_add_up_to_records_of_the_day (files : list (file F)) :
  forallb (usage_file accepts) files = true ->
  has_cost (scan accepts date_prefix files) + no_cost (scan accepts date_prefix files)
  = Shape.day_count date_prefix (records files).
Proof.
  intros Hu. unfold scan. rewrite (scan_from_usage accepts) by assumption.
  destruct (fold_tally_counts date_prefix (records files)
              {| has_cost := 0; no_cost := 0; total_cost_from_field := of_int 0 |})
    as [-> ->].
  cbn [has_cost no_cost].
  induction (records files) as [| r rs IH]; [reflexivity |].
  rewrite day_count_cons. cbn [map fold_right]. lia.
Qed.


End ScanCounts.

(** ** [find_exact_cache_rate.py] as a whole *)

(** X18.  The check that the script prints ("should equal") holds over the
    rationals: for an entry with cache tokens, the cost recomputed with the
    effective rate is the reported total. *)
Theorem test_cost_recovers_total_exact (ir or : Q) (e : entry Q) :
  0 < cacheCreationTokens e + cacheReadTokens e ->
  exists rate recomputed : Q,
    find_exact_cache_rate ir or e = Ok (Some (rate, recomputed))
    /\ (recomputed == totalCost e)%Q.
Proof.
  intros Hpos. rewrite find_exact_cache_rate_cases.
  cbn [int_fits exact andb].
  destruct (Z.ltb_spec 0 (cacheCreationTokens e + cacheReadTokens e)); [| lia].
  cbv zeta. do 2 eexists. split; [reflexivity |].
  cbn [fadd fsub fmul fdiv of_int exact].
  field. apply inject_Z_nonzero. lia.
Qed.

Lemma test_cost_recovers_total_exact_witness :
  exists rate recomputed : Q,
    find_exact_cache_rate (3 # 1000000)%Q (15 # 1000000)%Q
      {| inputTokens := 243187; outputTokens := 665699;
         cacheCreationTokens := 158988; cacheReadTokens := 910211;
         totalCost := (5555 # 10)%Q |}
    = Ok (Some (rate, recomputed))
    /\ (recomputed == 5555 # 10)%Q.
Proof.
  apply (test_cost_recovers_total_exact (3 # 1000000)%Q (15 # 1000000)%Q
           {| inputTokens := 243187; outputTokens := 665699;
              cacheCreationTokens := 158988; cacheReadTokens := 910211;
              totalCost := (5555 # 10)%Q |}).
  reflexivity.
Defined.

Section WholeScript.
Context {F : Type} {N : Number F}.
Import CacheRateScript.

Lemma find_entry_first_match (before after : list (json F)) (entry : dict F) :
  forallb Shape.other_day before = true ->
  Fetch.is_target_date (get entry "date" JNull) = true ->
  find_entry (before ++ JObj entry :: after) = Ok (Some entry).
Proof.
  intros Hbefore Hday. induction before as [| x before IH]; cbn.
  - now rewrite Hday.
  - cbn in Hbefore. rewrite andb_true_iff in Hbefore. destruct Hbefore as [Hx Hb].
    destruct x as [| | | | | | m]; try discriminate.
    cbn in Hx. rewrite negb_true_iff in Hx. rewrite Hx. now apply IH.
Qed.

Lemma find_entry_no_match (entries : list (json F)) :
  forallb Shape.other_day entries = true -> find_entry entries = Ok None.
Proof.
  induction entries as [| x entries IH]; cbn; [reflexivity |].
  rewrite andb_true_iff. intros [Hx Hrest].
  destruct x as [| | | | | | m]; try discriminate.
  cbn in Hx. rewrite negb_true_iff in Hx. rewrite Hx. now apply IH.
Qed.

Lemma script_on_output (ir or : F) (seconds : Q) (result : Fetch.completed F)
  (data : dict F) (entries : list (json F)) :
  Fetch.stdout result = Ok (JObj data) ->
  get data "daily" (JArr []) = JArr entries ->
  script ir or (Fetch.Exits seconds result)
  = ([Shape.unbounded_call (Some seconds)],
     snd (Fetch.lift (bind (find_entry entries)
                        (fun found =>
                           match found with
                           | Some entry => cache_rate_of_entry ir or entry
                           | None => Ok None
                           end)))).
Proof.
  intros Hout Hdaily. unfold script, Fetch.fetch_daily.
  cbn [Fetch.subprocess_run Fetch.and_then fst snd app]. rewrite Hout.
  cbn [Fetch.lift Fetch.and_then Fetch.daily_of bind fst snd app]. rewrite Hdaily.
  cbn [Fetch.iter_values bind].
  destruct (bind (find_entry entries) _); reflexivity.
Qed.

(** The entry of the day with [int] token counts and a cost that a float
    holds, as the record of the calculation. *)
Lemma cache_rate_of_entry_ints (ir or : F) (entry : dict F)
  (i o cc cr : Z) (cost : json F) (t : num F) (total_cost : F) :
  assoc "inputTokens" entry = Some (JInt i) ->
  assoc "outputTokens" entry = Some (JInt o) ->
  assoc "cacheCreationTokens" entry = Some (JInt cc) ->
  assoc "cacheReadTokens" entry = Some (JInt cr) ->
  assoc "totalCost" entry = Some cost ->
  as_num cost = Ok t ->
  to_float t = Ok total_cost ->
  cache_rate_of_entry ir or entry
  = find_exact_cache_rate ir or
      {| inputTokens := i; outputTokens := o; cacheCreationTokens := cc;
         cacheReadTokens := cr; totalCost := total_cost |}.
Proof.
  intros Hi Ho Hcc Hcr Hcost Ht Htc.
  rewrite find_exact_cache_rate_cases.
  cbn [inputTokens outputTokens cacheCreationTokens cacheReadTokens totalCost].
  unfold cache_rate_of_entry, getitem. rewrite Hi, Ho, Hcc, Hcr, Hcost.
  cbn [bind as_num to_float]. unfold float_of.
  destruct (int_fits i); [| reflexivity]. cbn [bind].
  destruct (int_fits o); [| reflexivity]. cbn [bind andb].
  rewrite Ht. cbn [bind]. rewrite Htc. cbn [bind num_add num_is_pos].
  destruct (0 <? cc + cr) eqn:Hpos; [| reflexivity].
  cbn [num_truediv to_float bind num_is_zero]. unfold float_of.
  destruct (int_fits (cc + cr)); [| reflexivity]. cbn [bind].
  apply Z.ltb_lt in Hpos. destruct (Z.eqb_spec (cc + cr) 0); [lia |].
  reflexivity.
Qed.

(** X19.  The script reports the calculation on the first entry of the
    day: when the command prints an object whose [daily] list holds, after
    objects of other days, an object of 2025-06-09 with [int] token counts
    and a cost that is a number within the range of a float, the script
    does what [find_exact_cache_rate] does on that entry: it reports the
    effective rate and the recomputed cost, or nothing where there are no
    cache tokens, or raises [OverflowError] out of the script where a
    token count is outside the range of a float.  It has run the command
    once, with no timeout.  Neither the exit status of the command nor the
    time it took nor what follows the entry matters. *)
Theorem script_reports_first_entry_of_the_day
  (ir or : F) (seconds : Q) (result : Fetch.completed F)
  (data entry : dict F) (before after : list (json F))
  (i o cc cr : Z) (cost : json F) (t : num F) (total_cost : F) :
  Fetch.stdout result = Ok (JObj data) ->
  get data "daily" (JArr []) = JArr (before ++ JObj entry :: after) ->
  forallb Shape.other_day before = true ->
  Fetch.is_target_date (get entry "date" JNull) = true ->
  assoc "inputTokens" entry = Some (JInt i) ->
  assoc "outputTokens" entry = Some (JInt o) ->
  assoc "cacheCreationTokens" entry = Some (JInt cc) ->
  assoc "cacheReadTokens" entry = Some (JInt cr) ->
  assoc "totalCost" entry = Some cost ->
  as_num cost = Ok t ->
  to_float t = Ok total_cost ->
  let e := {| inputTokens := i; outputTokens := o; cacheCreationTokens := cc;
              cacheReadTokens := cr; totalCost := total_cost |} in
  script ir or (Fetch.Exits seconds result)
  = ([Fetch.Run {| Fetch.call_timeout := None; Fetch.call_waited := Some seconds |}],
     match find_exact_cache_rate ir or e with
     | Ok report => Fetch.Returns report
     | Raise exception => Fetch.Raises exception
     end)
  /\ (int_fits i && int_fits o = false ->
      script ir or (Fetch.Exits seconds result)
      = ([Fetch.Run {| Fetch.call_timeout := None;
                       Fetch.call_waited := Some seconds |}],
         Fetch.Raises OverflowError)).
Proof.
  intros Hout Hdaily Hbefore Hday Hi Ho Hcc Hcr Hcost Ht Htc e.
  assert (Hscript :
            script ir or (Fetch.Exits seconds result)
            = ([Shape.unbounded_call (Some seconds)],
               match find_exact_cache_rate ir or e with
               | Ok report => Fetch.Returns report
               | Raise exception => Fetch.Raises exception
               end)).
  { rewrite (script_on_output ir or seconds result data _ Hout Hdaily).
    rewrite (find_entry_first_match before after entry Hbefore Hday). cbn [bind].
    rewrite (cache_rate_of_entry_ints ir or entry i o cc cr cost t total_cost)
      by assumption.
    fold e. destruct (find_exact_cache_rate ir or e); reflexivity. }
  split; [exact Hscript |].
  intros Hfit. rewrite Hscript, find_exact_cache_rate_cases.
  cbn [e inputTokens outputTokens]. rewrite Hfit. reflexivity.
Qed.

(** X20.  Where the data is not there the script says nothing or stops on
    an exception: with no entry of the day it ends without a report and
    without a message; with an entry of the day that lacks [inputTokens]
    it raises [KeyError] out of the script; and a token count that is not a
    number raises [TypeError] out of the script. *)
Theorem script_without_usable_entry
  (ir or : F) (seconds : Q) (result : Fetch.completed F)
  (data : dict F) (entries : list (json F)) :
  Fetch.stdout result = Ok (JObj data) ->
  get data "daily" (JArr []) = JArr entries ->
  let call := Fetch.Run {| Fetch.call_timeout := None;
                           Fetch.call_waited := Some seconds |} in
  (forallb Shape.other_day entries = true ->
   script ir or (Fetch.Exits seconds result) = ([call], Fetch.Returns None))
  /\ (forall before entry after,
        entries = before ++ JObj entry :: after ->
        forallb Shape.other_day before = true ->
        Fetch.is_target_date (get entry "date" JNull) = true ->
        (contains entry "inputTokens" = false ->
         script ir or (Fetch.Exits seconds result)
         = ([call], Fetch.Raises (KeyError "inputTokens")))
        /\ (forall v,
              assoc "inputTokens" entry = Some v ->
              Scan.is_number v = false ->
              contains entry "outputTokens" = true ->
              contains entry "cacheCreationTokens" = true ->
              contains entry "cacheReadTokens" = true ->
              contains entry "totalCost" = true ->
              script ir or (Fetch.Exits seconds result)
              = ([call], Fetch.Raises TypeError))).
Proof.
  intros Hout Hdaily call.
  rewrite (script_on_output ir or seconds result data _ Hout Hdaily).
  split.
  - intros Hother. now rewrite (find_entry_no_match entries Hother).
  - intros before entry after -> Hbefore Hday.
    rewrite (find_entry_first_match before after entry Hbefore Hday). cbn [bind].
    unfold cache_rate_of_entry, getitem, contains. split.
    + intros Hno. destruct (assoc "inputTokens" entry); [discriminate | reflexivity].
    + intros v Hv Hnum Ho Hcc Hcr Hcost. rewrite Hv.
      destruct (assoc "outputTokens" entry); [| discriminate].
      destruct (assoc "cacheCreationTokens" entry); [| discriminate].
      destruct (assoc "cacheReadTokens" entry); [| discriminate].
      destruct (assoc "totalCost" entry); [| discriminate].
      cbn [bind]. rewrite (as_num_not_number v Hnum). reflexivity.
Qed.

End WholeScript.

Section BadEntries.
Context {F : Type} {N : Number F}.
Import Fetch.

Lemma find_day_not_object (before after : list (json F)) (x : json F) :
  forallb Shape.other_day before = true ->
  Shape.not_object x = true ->
  find_day (before ++ x :: after) = Raise AttributeError.
Proof.
  intros Hbefore Hx. induction before as [| y before IH]; cbn.
  - destruct x; try reflexivity; discriminate.
  - cbn in Hbefore. rewrite andb_true_iff in Hbefore. destruct Hbefore as [Hy Hb].
    destruct y as [| | | | | | m]; try discriminate.
    cbn in Hy. rewrite negb_true_iff in Hy. rewrite Hy. now apply IH.
Qed.

(** X21.  One bad element hides the entry of the day: when the [daily]
    list holds, after objects of other days, an element that is no object,
    the fetcher reports [AttributeError] through its general handler and
    returns nothing, even if the entry of the day follows; and when the
    entry of the day lacks one of the keys that [build] reads, it reports
    the [KeyError] of the first such key and returns nothing. *)
Theorem run_ccusage_json_bad_entry
  (seconds : Q) (result : completed F) (data : dict F)
  (before after : list (json F)) (x : json F) :
  Qle_bool seconds 30 = true ->
  returncode result = 0 ->
  stdout result = Ok (JObj data) ->
  get data "daily" (JArr []) = JArr (before ++ x :: after) ->
  forallb Shape.other_day before = true ->
  let call := Run {| call_timeout := Some 30%Q; call_waited := Some seconds |} in
  (Shape.not_object x = true ->
   run_ccusage_json (Exits seconds result)
   = ([call; Stderr (TextExn "Error running ccusage: " AttributeError)],
      Returns None))
  /\ (forall entry key,
        x = JObj entry ->
        is_target_date (get entry "date" JNull) = true ->
        Shape.first_missing entry = Some key ->
        run_ccusage_json (Exits seconds result)
        = ([call; Stderr (TextExn "Error running ccusage: " (KeyError key))],
           Returns None)).
Proof.
  intros Htime Hrc Hout Hdaily Hbefore call.
  rewrite (run_ccusage_json_on_output seconds result data Htime Hrc Hout), Hdaily.
  cbn [iter_values bind]. split.
  - intros Hx. rewrite (find_day_not_object before after x Hbefore Hx). reflexivity.
  - intros entry key -> Hday Hmissing.
    rewrite (find_day_first_match before after entry Hbefore Hday).
    rewrite build_cases, Hmissing. reflexivity.
Qed.

End BadEntries.

Lemma run_ccusage_json_bad_entry_witness :
  Fetch.run_ccusage_json
    (Fetch.Exits 2%Q
       (Cases.prints (JNull :: Cases.two_days)))
  = ([Fetch.Run {| Fetch.call_timeout := Some 30%Q; Fetch.call_waited := Some 2%Q |};
      Fetch.Stderr (Fetch.TextExn "Error running ccusage: " AttributeError)],
     Fetch.Returns None).
Proof.
  apply (proj1 (run_ccusage_json_bad_entry (F := float) 2%Q
                  (Cases.prints (JNull :: Cases.two_days))
                  [("daily", JArr (JNull :: Cases.two_days))]%string
                  [] Cases.two_days JNull
                  eq_refl eq_refl eq_refl eq_refl eq_refl)).
  reflexivity.
Defined.

(** ** Instances *)

Lemma line_without_timestamp_test_ends_its_file_witness :
  Scan.scan_lines Scan.any_line "2025-06-09"
    {| Scan.has_cost := 0; Scan.no_cost := 0; Scan.total_cost_from_field := 0%float |}
    ([Scan.Parsed (Samples.record_with_cost 0.25%float)]
     ++ Scan.Parsed (JArr []) :: [Scan.Parsed (Samples.record_with_cost 0.5%float)])
  = Scan.scan_lines Scan.any_line "2025-06-09"
      {| Scan.has_cost := 0; Scan.no_cost := 0; Scan.total_cost_from_field := 0%float |}
      [Scan.Parsed (Samples.record_with_cost 0.25%float)].
Proof.
  apply (line_without_timestamp_test_ends_its_file (F := float) Scan.any_line
           "2025-06-09"%string (JArr [])).
  reflexivity.
Defined.

Lemma cost_that_is_no_number_is_counted_not_summed_witness :
  Scan.scan_lines Scan.any_line "2025-06-09"
    {| Scan.has_cost := 0; Scan.no_cost := 0; Scan.total_cost_from_field := 0%float |}
    [Scan.Parsed (JObj Cases.cost_as_string);
     Scan.Parsed (Samples.record_with_cost 0.5%float)]
  = {| Scan.has_cost := 0 + 1; Scan.no_cost := 0;
       Scan.total_cost_from_field := 0%float |}.
Proof.
  apply (cost_that_is_no_number_is_counted_not_summed (F := float) Scan.any_line
           "2025-06-09"%string Cases.cost_as_string
           "2025-06-09T08:00:00.000Z"%string);
    reflexivity.
Defined.

Lemma record_of_another_day_changes_nothing_witness :
  Scan.scan_record Scan.any_line "2025-06-09"
    {| Scan.has_cost := 2; Scan.no_cost := 1; Scan.total_cost_from_field := 0.5%float |}
    (JObj Cases.of_another_day)
  = ({| Scan.has_cost := 2; Scan.no_cost := 1;
        Scan.total_cost_from_field := 0.5%float |}, None).
Proof.
  apply (record_of_another_day_changes_nothing (F := float) Scan.any_line
           "2025-06-09"%string
           Cases.of_another_day "2025-06-08T23:59:59.000Z"%string [] []);
    reflexivity.
Defined.

Lemma counts_add_up_to_records_of_the_day_witness :
  let files :=
    [ Scan.Lines [Scan.Parsed (Samples.record_with_cost 0.1%float); Scan.Blank;
                  Scan.Parsed (JObj Cases.without_cost)];
      Scan.Unreadable;
      Scan.Lines [Scan.Parsed (JObj Samples.record_without_timestamp)] ] in
  Scan.has_cost (Scan.check_costUSD_field Scan.any_line files)
  + Scan.no_cost (Scan.check_costUSD_field Scan.any_line files)
  = Shape.day_count "2025-06-09" (Scan.records files).
Proof.
  cbv zeta.
  apply (counts_add_up_to_records_of_the_day (F := float) Scan.any_line
           "2025-06-09"%string).
  reflexivity.
Defined.


(** On a stream in UTF-8 the model of an entry that is no well-formed
    text is not shown: [print] raises after the record has been tallied,
    and the rest of the file is not read. *)
Lemma model_that_is_no_text_ends_its_file :
  Scan.usage_record Cases.utf8_stream (JObj Cases.surrogate_model) = false
  /\ Scan.scan_record Cases.utf8_stream "2025-06-09"
       {| Scan.has_cost := 0; Scan.no_cost := 0; Scan.total_cost_from_field := 0%float |}
       (JObj Cases.surrogate_model)
     = ({| Scan.has_cost := 1; Scan.no_cost := 0;
           Scan.total_cost_from_field := 0.5%float |}, Some UnicodeEncodeError)
  /\ Scan.check_costUSD_field Cases.utf8_stream
       [Scan.Lines [Scan.Parsed (JObj Cases.surrogate_model);
                    Scan.Parsed (Samples.record_with_cost 0.25%float)]]
     = {| Scan.has_cost := 1; Scan.no_cost := 0;
          Scan.total_cost_from_field := 0.5%float |}.
Proof.
  split; [reflexivity |]. split; vm_compute; reflexivity.
Qed.

Lemma script_reports_first_entry_of_the_day_witness :
  CacheRateScript.script input_rate output_rate Cases.slow_failing_command
  = ([Fetch.Run {| Fetch.call_timeout := None; Fetch.call_waited := Some 100%Q |}],
     Fetch.Returns (Some (0%float, 10.5%float))).
Proof.
  refine (eq_trans
            (proj1 (script_reports_first_entry_of_the_day (F := float)
               input_rate output_rate 100%Q
               {| Fetch.returncode := 1;
                  Fetch.stdout :=
                    Ok (JObj [("daily",
                               JArr [JObj (Cases.entry_on "2025-06-08" 1 2 3 4 10);
                                     JObj Cases.priced_entry])]%string);
                  Fetch.stderr := "" |}
               [("daily", JArr [JObj (Cases.entry_on "2025-06-08" 1 2 3 4 10);
                                JObj Cases.priced_entry])]%string
               Cases.priced_entry
               [JObj (Cases.entry_on "2025-06-08" 1 2 3 4 10)] []
               1000000 500000 100000 0 (JFloat 10.5%float) (NFloat 10.5%float)
               10.5%float
               eq_refl eq_refl eq_refl eq_refl eq_refl eq_refl eq_refl eq_refl
               eq_refl eq_refl eq_refl)) _).
  vm_compute. reflexivity.
Defined.

Lemma script_without_usable_entry_witness :
  CacheRateScript.script input_rate output_rate
    (Fetch.Exits 2%Q (Cases.prints Cases.another_day))
  = ([Fetch.Run {| Fetch.call_timeout := None; Fetch.call_waited := Some 2%Q |}],
     Fetch.Returns None).
Proof.
  apply (proj1 (script_without_usable_entry (F := float) input_rate output_rate 2%Q
                  (Cases.prints Cases.another_day)
                  [("daily", JArr Cases.another_day)]%string Cases.another_day
                  eq_refl eq_refl)).
  reflexivity.
Defined.
